(** * Sensor message rate monitor (examples/mavlink_direct/sensor_rate_monitor.cpp)

    A shallow embedding of the example's [main]: the subscription callback
    that filters and counts MAVLink messages, the render loop that prints the
    table once per second, and the start-up phase that waits for a system.

    Conventions of the embedding.
    - [std::string] is [string]; [std::map<std::string, T>] is [gmap string T].
      The program never iterates over its maps, so their order is irrelevant.
    - [unsigned] is a [Z] in [0, 2^32) with its wrap-around written out.
    - A [steady_clock::time_point] is the [Z] number of clock periods
      (nanoseconds) since the clock's epoch; [duration_cast] truncates
      towards zero, which is [Z.quot].
    - [double] is the kernel's binary64 [float].
    - Console output, sleeping and the mutex are recorded as a list of
      [effect]s in program order. *)

From Stdlib Require Import ZArith String Ascii List DecimalString Lia.
From Stdlib Require Import PrimFloat FloatOps SpecFloat Uint63 FloatAxioms.
From stdpp Require Import gmap strings list relations.

Local Open Scope string_scope.
Local Open Scope Z_scope.

Module SensorRateMonitor.

(** ** Integers, clocks and text *)

(** [unsigned] on the platforms MAVSDK builds for. *)
Definition UINT_BITS : Z := 32.
Definition UINT_MODULUS : Z := 2 ^ UINT_BITS.

(** [c++] on an [unsigned]. *)
Definition uint_incr (c : Z) : Z := (c + 1) mod UINT_MODULUS.

(** Clock periods per second and per millisecond of [steady_clock]. *)
Definition PERIODS_PER_SECOND : Z := 1000000000.
Definition PERIODS_PER_MILLISECOND : Z := 1000000.

(** [duration_cast<seconds>(d).count()] and
    [duration_cast<milliseconds>(d).count()]. *)
Definition duration_cast_seconds (d : Z) : Z := Z.quot d PERIODS_PER_SECOND.
Definition duration_cast_milliseconds (d : Z) : Z := Z.quot d PERIODS_PER_MILLISECOND.

(** [std::to_string] of a signed integer, also what [operator<<] prints. *)
Definition to_string (z : Z) : string := NilZero.string_of_int (Z.to_int z).

Fixpoint spaces (n : nat) : string :=
  match n with
  | O => EmptyString
  | S n' => String " " (spaces n')
  end.

(** [std::setw(w)] with [std::right] and with [std::left]: the text is padded
    with the fill character up to [w], and never cut. *)
Definition setw_right (w : nat) (s : string) : string :=
  spaces (w - String.length s) ++ s.
Definition setw_left (w : nat) (s : string) : string :=
  s ++ spaces (w - String.length s).

(** ** State shared by the callback and the render loop *)

Record Session := mkSession {
  message_counts : gmap string Z;
  last_message_time : gmap string Z;
  start_time : Z;
  (** [std::cout]'s adjustfield: [std::left] is sticky and is the last
      manipulator of every table row. *)
  cout_left : bool
}.

(** The locals of [main] as line 86 leaves them. *)
Definition initial_session (t0 : Z) : Session :=
  mkSession ∅ ∅ t0 false.

Definition monitored_messages : list string :=
  [ "OPTICAL_FLOW"; "OPTICAL_FLOW_RAD"; "DISTANCE_SENSOR"; "HEARTBEAT" ].

(** [std::map::operator[]] on the count map: a missing key is inserted with a
    value-initialised [unsigned], and the (possibly new) entry is returned. *)
Definition counts_index (m : gmap string Z) (k : string) : Z * gmap string Z :=
  match m !! k with
  | Some v => (v, m)
  | None => (0, <[k := 0]> m)
  end.

(** [message_counts[k]++]. *)
Definition counts_increment (m : gmap string Z) (k : string) : gmap string Z :=
  let '(v, m') := counts_index m k in <[k := uint_incr v]> m'.

(** The count a reader sees for [k]: the entry, or 0 when there is none. *)
Definition count_of (s : Session) (k : string) : Z :=
  default 0 (message_counts s !! k).

(** ** The subscription callback (lines 98-114) *)

(** The [for] loop with its [break]: stops at the first equal name. *)
Fixpoint is_monitored (names : list string) (message_name : string) : bool :=
  match names with
  | [] => false
  | msg_name :: rest =>
      if String.eqb message_name msg_name then true
      else is_monitored rest message_name
  end.

(** The callback body, run under [stats_mutex]; [now] is the reading of
    [steady_clock::now()] on line 112. *)
Definition on_message (s : Session) (message_name : string) (now : Z) : Session :=
  if is_monitored monitored_messages message_name then
    mkSession (counts_increment (message_counts s) message_name)
              (<[message_name := now]> (last_message_time s))
              (start_time s) (cout_left s)
  else s.

(** ** Effects of the program, in program order *)

Inductive effect :=
| SleepFor (periods : Z)   (** [std::this_thread::sleep_for] *)
| Lock                     (** a [std::lock_guard] on [stats_mutex] is built *)
| Unlock                   (** the guard's scope ends *)
| Cout (text : string)     (** one output statement on [std::cout] *)
| Cerr (text : string)     (** one output statement on [std::cerr] *)
| Flush.                   (** [std::flush], also the second half of [std::endl] *)

Definition nl : string := String (ascii_of_nat 10) EmptyString.
Definition esc : string := String (ascii_of_nat 27) EmptyString.

(** ** The render loop body (lines 119-170) *)

(** Conversion of an integer to [double]; exact below 2^53. *)
Definition double_of_Z (z : Z) : float :=
  if z <? 0 then PrimFloat.opp (PrimFloat.of_uint63 (Uint63.of_Z (- z)))
  else PrimFloat.of_uint63 (Uint63.of_Z z).

(** Line 140. *)
Definition messages_per_second (count elapsed : Z) : float :=
  if 0 <? elapsed then PrimFloat.div (double_of_Z count) (double_of_Z elapsed)
  else PrimFloat.zero.

(** Rounding of [num / den] to the nearest integer, ties to even, as the C
    library does when it prints a [double] with a fixed precision. *)
Definition round_half_even (num den : Z) : Z :=
  let q := num / den in
  let r := num mod den in
  if 2 * r <? den then q
  else if den <? 2 * r then q + 1
  else if Z.even q then q else q + 1.

(** The value [m * 2^e] in hundredths. *)
Definition hundredths (m : positive) (e : Z) : Z :=
  if 0 <=? e then Z.pos m * 100 * 2 ^ e
  else round_half_even (Z.pos m * 100) (2 ^ (- e)).

Definition two_digits (n : Z) : string :=
  if n <? 10 then "0" ++ to_string n else to_string n.

(** [std::fixed << std::setprecision(2)] applied to a [double]. *)
Definition format_fixed2 (x : float) : string :=
  match Prim2SF x with
  | S754_zero sg => (if sg then "-" else "") ++ "0.00"
  | S754_infinity sg => if sg then "-inf" else "inf"
  | S754_nan => "nan"
  | S754_finite sg m e =>
      let h := hundredths m e in
      (if sg then "-" else "") ++ to_string (h / 100) ++ "." ++ two_digits (h mod 100)
  end.

(** Lines 143-153: the text of the last column. *)
Definition last_seen (times : gmap string Z) (msg_name : string) (current_time : Z) : string :=
  match times !! msg_name with
  | None => "Never"
  | Some t =>
      let time_since_last := duration_cast_milliseconds (current_time - t) in
      if time_since_last <? 1000 then to_string time_since_last ++ " ms ago"
      else to_string (Z.quot time_since_last 1000) ++ " s ago"
  end.

(** Lines 155-159: one table row. *)
Definition format_row (msg_name : string) (count : Z) (rate : float) (seen : string) : string :=
  "│ " ++ setw_left 26 msg_name ++ " │ "
       ++ setw_right 5 (to_string count) ++ " │ "
       ++ setw_right 9 (format_fixed2 rate) ++ " │ "
       ++ setw_left 12 seen ++ " │" ++ nl.

(** What one iteration of the [for] loop on line 138 reads and prints. *)
Record Row := mkRow {
  row_name : string;
  row_count : Z;
  row_rate : float;
  row_last_seen : string
}.

Definition row_text (r : Row) : string :=
  format_row (row_name r) (row_count r) (row_rate r) (row_last_seen r).

(** One iteration: [message_counts[msg_name]] is [operator[]], so the count
    map is threaded through. *)
Definition render_row (counts times : gmap string Z) (elapsed current_time : Z)
    (msg_name : string) : gmap string Z * Row :=
  let '(count, counts') := counts_index counts msg_name in
  (counts', mkRow msg_name count (messages_per_second count elapsed)
                  (last_seen times msg_name current_time)).

Fixpoint render_rows (names : list string) (counts times : gmap string Z)
    (elapsed current_time : Z) : gmap string Z * list Row :=
  match names with
  | [] => (counts, [])
  | msg_name :: rest =>
      let '(counts1, r) := render_row counts times elapsed current_time msg_name in
      let '(counts2, rs) := render_rows rest counts1 times elapsed current_time in
      (counts2, r :: rs)
  end.

Definition clear_screen : string := esc ++ "[2J" ++ esc ++ "[H".
Definition table_top : string :=
  "┌────────────────────────────────────────────────────────────────┐" ++ nl.
Definition table_title : string :=
  "│ Sensor Message Rate Monitor                                    │" ++ nl.
Definition table_runtime (left : bool) (elapsed : Z) : string :=
  "│ Runtime: " ++ (if left then setw_left else setw_right) 3%nat (to_string elapsed)
    ++ " seconds                                           │" ++ nl.
Definition table_rule_top : string :=
  "├────────────────────────────┬───────┬───────────┬──────────────┤" ++ nl.
Definition table_columns : string :=
  "│ Message Name               │ Total │ Rate (Hz) │ Last Seen    │" ++ nl.
Definition table_rule_mid : string :=
  "├────────────────────────────┼───────┼───────────┼──────────────┤" ++ nl.
Definition table_bottom : string :=
  "└────────────────────────────┴───────┴───────────┴──────────────┘" ++ nl.
Definition warning_line : string :=
  nl ++ "⚠ No monitored messages received yet." ++ nl.
Definition waiting_for_line : string :=
  "  Waiting for: OPTICAL_FLOW, OPTICAL_FLOW_RAD, DISTANCE_SENSOR, HEARTBEAT" ++ nl.

Definition table_header (left : bool) (elapsed : Z) : list effect :=
  [ Cout clear_screen; Cout table_top; Cout table_title;
    Cout (table_runtime left elapsed);
    Cout table_rule_top; Cout table_columns; Cout table_rule_mid ].

(** Lines 165-168, given the count map as the [for] loop left it. *)
Definition status_message (counts : gmap string Z) : list effect :=
  if bool_decide (counts = ∅) then [ Cout warning_line; Cout waiting_for_line ]
  else [].

(** The rows of a tick and the count map after them. *)
Definition tick_rows (s : Session) (current_time : Z) : gmap string Z * list Row :=
  render_rows monitored_messages (message_counts s) (last_message_time s)
    (duration_cast_seconds (current_time - start_time s)) current_time.

(** One iteration of [while (true)]; [current_time] is the reading on line
    123, taken with the lock held. *)
Definition render_tick (s : Session) (current_time : Z) : Session * list effect :=
  let elapsed := duration_cast_seconds (current_time - start_time s) in
  let '(counts', rows) := tick_rows s current_time in
  (mkSession counts' (last_message_time s) (start_time s)
     (match monitored_messages with [] => cout_left s | _ => true end),
   ([ SleepFor (1 * PERIODS_PER_SECOND); Lock ]
    ++ table_header (cout_left s) elapsed
    ++ map (fun r => Cout (row_text r)) rows
    ++ [ Cout table_bottom ]
    ++ status_message counts'
    ++ [ Flush; Unlock ])%list).

(** Everything written to [std::cout] by a list of effects. *)
Fixpoint console_text (effs : list effect) : string :=
  match effs with
  | [] => ""
  | Cout text :: rest => text ++ console_text rest
  | _ :: rest => console_text rest
  end.

(** The texts written to [std::cout] while the calling thread holds
    [stats_mutex], and those written while it does not; [held] is the state
    of the lock before the first effect. *)
Fixpoint writes_under_lock (held : bool) (effs : list effect) : list string :=
  match effs with
  | [] => []
  | Lock :: rest => writes_under_lock true rest
  | Unlock :: rest => writes_under_lock false rest
  | Cout text :: rest =>
      if held then text :: writes_under_lock held rest
      else writes_under_lock held rest
  | _ :: rest => writes_under_lock held rest
  end.

Fixpoint writes_without_lock (held : bool) (effs : list effect) : list string :=
  match effs with
  | [] => []
  | Lock :: rest => writes_without_lock true rest
  | Unlock :: rest => writes_without_lock false rest
  | Cout text :: rest =>
      if held then writes_without_lock held rest
      else text :: writes_without_lock held rest
  | _ :: rest => writes_without_lock held rest
  end.

(** Whether the lock is held once the effects are over. *)
Fixpoint lock_after (held : bool) (effs : list effect) : bool :=
  match effs with
  | [] => held
  | Lock :: rest => lock_after true rest
  | Unlock :: rest => lock_after false rest
  | _ :: rest => lock_after held rest
  end.

(** Line 99: the callback builds its own guard on [stats_mutex] first and
    keeps it for its whole body. *)
Definition callback_effects : list effect := [ Lock; Unlock ].

(** Whether a thread with the effects [todo] ahead can take its next step
    when another thread holds the mutex or not: building a guard waits for
    the mutex to be free. *)
Definition can_proceed (held_by_other : bool) (todo : list effect) : bool :=
  match todo with
  | Lock :: _ => negb held_by_other
  | _ => true
  end.

(** ** Monitoring: the callback and the render loop interleaved *)

(** [stats_mutex] makes a callback and a loop iteration exclude each other,
    so a run of the monitoring phase is a sequence of whole callbacks and
    whole iterations. *)
Inductive input :=
| Deliver (message_name : string) (now : Z)
| Tick (current_time : Z).

Definition handle (s : Session) (i : input) : Session :=
  match i with
  | Deliver message_name now => on_message s message_name now
  | Tick current_time => fst (render_tick s current_time)
  end.

Definition run (s : Session) (inputs : list input) : Session :=
  fold_left handle inputs s.

(** How many of the inputs deliver a message called [name]. *)
Fixpoint delivered (name : string) (inputs : list input) : Z :=
  match inputs with
  | [] => 0
  | Deliver message_name _ :: rest =>
      (if String.eqb message_name name then 1 else 0) + delivered name rest
  | Tick _ :: rest => delivered name rest
  end.

(** ** Start-up (lines 29-116) *)

(** [mavsdk::ConnectionResult] as [main] uses it: [Success] or anything
    else, of which only the text that [operator<<] prints matters. *)
Inductive ConnectionResult :=
| Success
| NotSuccess (printed : string).

(** What the process is started with and what its surroundings answer. *)
Record World := mkWorld {
  argc : Z;
  argv0 : string;
  (** the result of [mavsdk.add_any_connection(argv[1])] *)
  add_any_connection : ConnectionResult;
  (** the result of the [q]-th call of [mavsdk.systems().size()] *)
  systems_size : nat -> nat;
  (** the [c]-th reading of [steady_clock::now()] made by [main] before the
      render loop *)
  steady_clock_now : nat -> Z
}.

Definition usage (bin_name : string) : string :=
  "Usage : " ++ bin_name ++ " <connection_url>" ++ nl
  ++ "Connection URL format should be :" ++ nl
  ++ " For TCP server: tcpin://<our_ip>:<port>" ++ nl
  ++ " For TCP client: tcpout://<remote_ip>:<port>" ++ nl
  ++ " For UDP server: udpin://<our_ip>:<port>" ++ nl
  ++ " For UDP client: udpout://<remote_ip>:<port>" ++ nl
  ++ " For Serial : serial://</path/to/serial/dev>:<baudrate>]" ++ nl
  ++ "For example, to connect to a serial device: serial:///dev/ttyUSB0:57600" ++ nl.

Definition POLL_PERIOD : Z := 100 * PERIODS_PER_MILLISECOND.
Definition GRACE_PERIOD : Z := 2 * PERIODS_PER_SECOND.

Definition note_no_autopilot : string :=
  "Note: No autopilot system detected after 10 seconds." ++ nl.
Definition note_continuing : string :=
  "Continuing to listen for MAVLink messages anyway..." ++ nl.
Definition listening_line : string := "Listening for MAVLink messages..." ++ nl.
Definition warning_no_system : string :=
  "Warning: No system detected. MAVLink messages may not be received." ++ nl.
Definition warning_make_sure : string :=
  "Make sure the device is sending MAVLink messages." ++ nl.

(** How the loop on lines 49-58 ends. *)
Record WaitResult := mkWaitResult {
  (** the loop ended by its [break] *)
  wait_timed_out : bool;
  (** the clock readings taken on line 51, oldest first *)
  wait_readings : list Z;
  (** calls of [systems().size()] and readings of the clock made so far *)
  wait_queries : nat;
  wait_clock_reads : nat;
  wait_effects : list effect
}.

(** The loop on lines 49-58; [q] and [c] count the calls of
    [systems().size()] and the clock readings made before it. [None] when
    [fuel] iterations do not end it. *)
Fixpoint wait_for_system (fuel : nat) (w : World) (start_wait : Z) (q c : nat)
    : option WaitResult :=
  match fuel with
  | O => None
  | S fuel' =>
      if Nat.eqb (systems_size w q) 0 then
        let now := steady_clock_now w c in
        let elapsed := duration_cast_seconds (now - start_wait) in
        if 10 <? elapsed then
          Some (mkWaitResult true [now] (S q) (S c)
                  [ SleepFor POLL_PERIOD; Cout note_no_autopilot; Cout note_continuing ])
        else
          match wait_for_system fuel' w start_wait (S q) (S c) with
          | Some r =>
              Some (mkWaitResult (wait_timed_out r) (now :: wait_readings r)
                      (wait_queries r) (wait_clock_reads r)
                      (SleepFor POLL_PERIOD :: wait_effects r))
          | None => None
          end
      else Some (mkWaitResult false [] (S q) c [])
  end.

(** A point of [main] from which the program goes on, or its end. *)
Inductive config :=
| InLoop (s : Session)      (** at [while (true)] on line 118, subscribed *)
| AfterLoop (s : Session)   (** at line 173, after the loop *)
| Exited (status : Z).      (** [main] has returned [status] *)

(** Lines 80-116: plugin, statistics, subscription, and the banner. *)
Definition start_monitoring (w : World) (c : nat) : config * list effect :=
  (InLoop (initial_session (steady_clock_now w c)),
   [ Cout (nl ++ "Monitoring sensor messages. Press Ctrl+C to exit..." ++ nl ++ nl);
     Flush ]).

(** Lines 60-77, after the wait loop has made [q] queries: the outcome is
    either [return 1] or going on to line 80. *)
Definition first_system (w : World) (q c : nat) : config * list effect :=
  if (0 <? systems_size w q)%nat then
    let '(cfg, effs) := start_monitoring w c in
    (cfg, ([ Cout ("System connected!" ++ nl); Flush ] ++ effs)%list)
  else
    let grace := [ Cout listening_line; Flush; SleepFor GRACE_PERIOD ] in
    if (0 <? systems_size w (S q))%nat then
      let '(cfg, effs) := start_monitoring w c in
      (cfg, (grace ++ effs)%list)
    else
      (Exited 1, (grace ++ [ Cout warning_no_system; Cout warning_make_sure ])%list).

(** [main] up to the render loop. *)
Definition main (fuel : nat) (w : World) : option (config * list effect) :=
  if negb (argc w =? 2) then Some (Exited 1, [ Cerr (usage (argv0 w)) ])
  else
    match add_any_connection w with
    | NotSuccess printed =>
        Some (Exited 1, [ Cerr ("Connection failed: " ++ printed ++ nl); Flush ])
    | Success =>
        match wait_for_system fuel w (steady_clock_now w 0) 0 1 with
        | None => None
        | Some r =>
            let '(cfg, effs) := first_system w (wait_queries r) (wait_clock_reads r) in
            Some (cfg, ([ Cout ("Waiting for system to connect..." ++ nl); Flush ]
                        ++ wait_effects r ++ effs)%list)
        end
    end.

(** ** The program from the render loop on *)

(** A callback runs, or the loop body runs and control is back at
    [while (true)]: the body has no [break], [return] or [goto]. Lines
    173-177 unsubscribe and return 0. *)
Inductive step : config -> config -> Prop :=
| step_deliver s message_name now :
    step (InLoop s) (InLoop (on_message s message_name now))
| step_tick s current_time :
    step (InLoop s) (InLoop (fst (render_tick s current_time)))
| step_cleanup s :
    step (AfterLoop s) (Exited 0).

(** ** Worlds used to exercise the start-up *)

(** The wait loop cannot make more iterations than this when its sleeps last
    at least as long as asked: after 110 of them 11 s have gone by. *)
Definition MAX_POLLS : nat := 110.

(** Between two of the first clock readings lies a sleep of [POLL_PERIOD],
    which lasts at least that long. *)
Definition clock_advances (w : World) : Prop :=
  forall c, (c < MAX_POLLS)%nat ->
    steady_clock_now w c + POLL_PERIOD <= steady_clock_now w (S c).

(** No system ever shows up, and every sleep lasts exactly as asked. *)
Definition silent_world : World :=
  mkWorld 2 "sensor_rate_monitor" Success (fun _ => O)
          (fun c => Z.of_nat c * POLL_PERIOD).

(** ** The division on line 140, with its divisor watched *)

(** [x / divisor], or [None] where the divisor is 0. *)
Definition checked_div (x : float) (divisor : Z) : option float :=
  if divisor =? 0 then None
  else Some (PrimFloat.div x (double_of_Z divisor)).

(** Line 140 again, dividing with [checked_div]. *)
Definition messages_per_second_checked (count elapsed : Z) : option float :=
  if 0 <? elapsed then checked_div (double_of_Z count) elapsed
  else Some PrimFloat.zero.

(** ** Inputs used in the examples *)

(** 2^32 deliveries of HEARTBEAT. *)
Definition heartbeat_flood : list input :=
  repeat (Deliver "HEARTBEAT" 1000) (Z.to_nat UINT_MODULUS).

(** Three heartbeats at 0.1 s, 0.5 s and 0.9 s, and an unmonitored message. *)
Definition three_heartbeats : list input :=
  [ Deliver "HEARTBEAT" 100000000; Deliver "ATTITUDE" 200000000;
    Deliver "HEARTBEAT" 500000000; Deliver "HEARTBEAT" 900000000 ].

(** The session after [three_heartbeats], and the row a tick at 1.0 s prints
    for HEARTBEAT. *)
Definition after_three_heartbeats : Session :=
  run (initial_session 0) three_heartbeats.
Definition heartbeat_row : Row :=
  mkRow "HEARTBEAT" 3 (messages_per_second 3 1) "100 ms ago".

(** ** Views of a run used to state what the loop and the callback keep *)

(** The clock reading of the most recent delivery of [name], or [earlier]
    when there is none. *)
Fixpoint last_delivery (name : string) (inputs : list input) (earlier : option Z)
    : option Z :=
  match inputs with
  | [] => earlier
  | Deliver message_name now :: rest =>
      last_delivery name rest
        (if String.eqb message_name name then Some now else earlier)
  | Tick _ :: rest => last_delivery name rest earlier
  end.

Definition is_delivery (i : input) : bool :=
  match i with
  | Deliver _ _ => true
  | Tick _ => false
  end.

(** The inputs without the render ticks. *)
Definition deliveries_only (inputs : list input) : list input :=
  List.filter is_delivery inputs.


(** The inputs without the deliveries that the callback's filter rejects. *)
Definition passes_filter (i : input) : bool :=
  match i with
  | Deliver message_name _ => is_monitored monitored_messages message_name
  | Tick _ => true
  end.
Definition monitored_only (inputs : list input) : list input :=
  List.filter passes_filter inputs.

(** No delivery among the inputs read the clock later than [bound]. *)
Definition delivered_by (bound : Z) (inputs : list input) : Prop :=
  Forall (fun i => match i with
                   | Deliver _ now => now <= bound
                   | Tick _ => True
                   end) inputs.

(** Two sessions with the same counts, last-seen times and start time. *)
Definition same_statistics (s1 s2 : Session) : Prop :=
  (forall k, count_of s1 k = count_of s2 k) ∧
  last_message_time s1 = last_message_time s2 ∧
  start_time s1 = start_time s2.

(** The time asked of [sleep_for] by a list of effects, in clock periods. *)
Fixpoint sleep_total (effs : list effect) : Z :=
  match effs with
  | [] => 0
  | SleepFor periods :: rest => periods + sleep_total rest
  | _ :: rest => sleep_total rest
  end.

(** Every sleep lasts at least as long as asked. The reading [S c] follows
    the reading [c] after a sleep only while all the queries up to the
    [c]-th found no system: the next reading is then made by the wait loop
    after its sleep of [POLL_PERIOD], or after the longer grace sleep. Where
    a query found a system, the next reading is the start time of line 86
    and nothing is asked of it. *)
Definition sleeps_last (w : World) : Prop :=
  forall c, (c < MAX_POLLS)%nat ->
    (forall j, (j <= c)%nat -> systems_size w j = O) ->
    steady_clock_now w c + POLL_PERIOD <= steady_clock_now w (S c).

(** A system shows up at the fourth query, after three polls of 100 ms; the
    start time is read 1 ms after the last poll. *)
Definition late_world : World :=
  mkWorld 2 "sensor_rate_monitor" Success
          (fun q => if (q <? 3)%nat then O else 1%nat)
          (fun c => if (c <? 4)%nat then Z.of_nat c * POLL_PERIOD
                    else 3 * POLL_PERIOD + PERIODS_PER_MILLISECOND).

(** A system is there from the first query on. *)
Definition ready_world : World :=
  mkWorld 2 "sensor_rate_monitor" Success (fun _ => 1%nat)
          (fun c => Z.of_nat c * POLL_PERIOD).

(** * Properties *)

(** ** The maps under the callback and the render loop *)

Lemma is_monitored_elem names n : is_monitored names n = true <-> n ∈ names.
Proof.
  induction names as [|m rest IH]; simpl.
  - split; [discriminate | intros H; inversion H].
  - destruct (String.eqb_spec n m) as [->|Hne].
    + split; [intros _; left | reflexivity].
    + rewrite IH. split; [intros H; by right | intros H].
      inversion H; subst; [congruence | assumption].
Qed.

Lemma counts_index_value m k : fst (counts_index m k) = default 0 (m !! k).
Proof. unfold counts_index. by destruct (m !! k). Qed.

Lemma counts_index_lookup m k j :
  snd (counts_index m k) !! j =
  match m !! j with
  | Some v => Some v
  | None => if bool_decide (j = k) then Some 0 else None
  end.
Proof.
  unfold counts_index. destruct (m !! k) as [v|] eqn:Hk; simpl.
  - destruct (m !! j) eqn:Hj; [done|]. case_bool_decide; [congruence | done].
  - case_bool_decide as Hjk.
    + subst j. rewrite lookup_insert_eq, Hk. done.
    + rewrite lookup_insert_ne by congruence. by destruct (m !! j).
Qed.

Lemma counts_increment_lookup m k j :
  counts_increment m k !! j =
  if bool_decide (j = k) then Some (uint_incr (default 0 (m !! k))) else m !! j.
Proof.
  unfold counts_increment.
  pose proof (counts_index_value m k) as Hv.
  pose proof (counts_index_lookup m k j) as Hl.
  destruct (counts_index m k) as [v m']. simpl in *. subst v.
  case_bool_decide as Hjk.
  - subst. by rewrite lookup_insert_eq.
  - rewrite lookup_insert_ne by congruence. rewrite Hl. by destruct (m !! j).
Qed.

Lemma render_rows_lookup names counts times e t j :
  fst (render_rows names counts times e t) !! j =
  match counts !! j with
  | Some v => Some v
  | None => if bool_decide (j ∈ names) then Some 0 else None
  end.
Proof.
  revert counts. induction names as [|k rest IH]; intros counts; cbn [render_rows].
  - cbn [fst]. destruct (counts !! j); [done|].
    rewrite bool_decide_eq_false_2; [done | apply not_elem_of_nil].
  - unfold render_row.
    pose proof (counts_index_lookup counts k j) as Hl.
    destruct (counts_index counts k) as [v m']. cbn [snd] in Hl.
    specialize (IH m').
    destruct (render_rows rest m' times e t) as [c2 rs]. cbn [fst] in *.
    rewrite IH, Hl. destruct (counts !! j); [done|].
    rewrite (bool_decide_ext (j ∈ k :: rest) (j = k ∨ j ∈ rest)) by apply elem_of_cons.
    destruct (decide (j = k)) as [->|Hne].
    + rewrite !bool_decide_eq_true_2; [done | by left | done].
    + rewrite (bool_decide_eq_false_2 (j = k)) by done.
      apply (f_equal (fun b : bool => if b then Some 0 else None)).
      apply bool_decide_ext. split; [by right | by intros [?|?]].
Qed.

Lemma on_message_monitored s n t :
  n ∈ monitored_messages ->
  on_message s n t =
  mkSession (counts_increment (message_counts s) n)
            (<[n := t]> (last_message_time s)) (start_time s) (cout_left s).
Proof.
  intros Hn. unfold on_message.
  by rewrite (proj2 (is_monitored_elem _ _) Hn).
Qed.

Lemma on_message_unmonitored s n t :
  n ∉ monitored_messages -> on_message s n t = s.
Proof.
  intros Hn. unfold on_message.
  destruct (is_monitored monitored_messages n) eqn:E; [|done].
  apply is_monitored_elem in E. done.
Qed.

Lemma on_message_count s n t k :
  count_of (on_message s n t) k =
  if bool_decide (n ∈ monitored_messages ∧ k = n) then uint_incr (count_of s k)
  else count_of s k.
Proof.
  destruct (decide (n ∈ monitored_messages)) as [Hn|Hn].
  - rewrite on_message_monitored by done. unfold count_of. cbn [message_counts].
    rewrite counts_increment_lookup.
    destruct (decide (k = n)) as [->|Hne].
    + by rewrite !bool_decide_eq_true_2.
    + rewrite !bool_decide_eq_false_2; [done | tauto | done].
  - rewrite on_message_unmonitored by done.
    rewrite bool_decide_eq_false_2; [done | tauto].
Qed.

Lemma render_tick_counts_lookup s t k :
  message_counts (fst (render_tick s t)) !! k =
  match message_counts s !! k with
  | Some v => Some v
  | None => if bool_decide (k ∈ monitored_messages) then Some 0 else None
  end.
Proof.
  unfold render_tick.
  pose proof (render_rows_lookup monitored_messages (message_counts s)
                (last_message_time s)
                (duration_cast_seconds (t - start_time s)) t k) as H.
  unfold tick_rows. destruct (render_rows _ _ _ _ _) as [c rs]. exact H.
Qed.

Lemma render_tick_count s t k : count_of (fst (render_tick s t)) k = count_of s k.
Proof.
  unfold count_of. rewrite render_tick_counts_lookup.
  destruct (message_counts s !! k); [done|]. by case_bool_decide.
Qed.

Lemma render_tick_last s t :
  last_message_time (fst (render_tick s t)) = last_message_time s.
Proof. unfold render_tick. by destruct (tick_rows s t). Qed.

Lemma delivered_nonneg k inputs : 0 <= delivered k inputs.
Proof.
  induction inputs as [|[n t|t] rest IH]; simpl; [lia | | done].
  destruct (String.eqb n k); lia.
Qed.

Lemma uint_incr_range c : 0 <= uint_incr c < UINT_MODULUS.
Proof. unfold uint_incr. apply Z.mod_pos_bound. reflexivity. Qed.

Lemma count_of_run inputs : forall s k,
  k ∈ monitored_messages ->
  0 <= count_of s k < UINT_MODULUS ->
  count_of (run s inputs) k = (count_of s k + delivered k inputs) mod UINT_MODULUS.
Proof.
  induction inputs as [|i rest IH]; intros s k Hk Hr.
  - cbn [run fold_left delivered]. rewrite Z.add_0_r, Z.mod_small; done.
  - change (run s (i :: rest)) with (run (handle s i) rest).
    destruct i as [n t|t]; cbn [handle delivered].
    + rewrite IH; [|done|].
      * rewrite on_message_count.
        destruct (String.eqb_spec n k) as [->|Hne].
        -- rewrite bool_decide_eq_true_2 by done. unfold uint_incr.
           rewrite Zplus_mod_idemp_l. f_equal. lia.
        -- rewrite bool_decide_eq_false_2; [done|]. intros [_ ?]. congruence.
      * rewrite on_message_count. case_bool_decide; [apply uint_incr_range | done].
    + rewrite IH; [|done|]; rewrite render_tick_count; done.
Qed.

Lemma last_seen_run inputs : forall s k,
  is_Some (last_message_time (run s inputs) !! k) <->
  is_Some (last_message_time s !! k) ∨ (k ∈ monitored_messages ∧ 0 < delivered k inputs).
Proof.
  induction inputs as [|i rest IH]; intros s k.
  - cbn [run fold_left delivered]. split; [by left | intros [H|[_ H]]; [done | lia]].
  - change (run s (i :: rest)) with (run (handle s i) rest).
    rewrite IH. pose proof (delivered_nonneg k rest) as Hd.
    destruct i as [n t|t]; cbn [handle delivered].
    + destruct (decide (n ∈ monitored_messages)) as [Hn|Hn].
      * rewrite on_message_monitored by done. cbn [last_message_time].
        destruct (String.eqb_spec n k) as [->|Hne].
        -- rewrite lookup_insert_eq. split; [intros _; right; split; [done | lia] | intros _; left; done].
        -- rewrite lookup_insert_ne by done. rewrite Z.add_0_l. done.
      * rewrite on_message_unmonitored by done.
        destruct (String.eqb_spec n k) as [->|Hne]; [|by rewrite Z.add_0_l].
        split; intros [H|[H1 H2]]; [by left | done | by left | done].
    + rewrite render_tick_last. done.
Qed.

Lemma unmonitored_untouched inputs : forall s k,
  k ∉ monitored_messages ->
  message_counts (run s inputs) !! k = message_counts s !! k ∧
  last_message_time (run s inputs) !! k = last_message_time s !! k.
Proof.
  induction inputs as [|i rest IH]; intros s k Hk; [done|].
  change (run s (i :: rest)) with (run (handle s i) rest).
  destruct (IH (handle s i) k Hk) as [-> ->].
  destruct i as [n t|t]; cbn [handle].
  - destruct (decide (n ∈ monitored_messages)) as [Hn|Hn].
    + rewrite on_message_monitored by done. cbn [message_counts last_message_time].
      assert (k ≠ n) by congruence.
      rewrite counts_increment_lookup, bool_decide_eq_false_2 by done.
      by rewrite lookup_insert_ne.
    + by rewrite on_message_unmonitored.
  - rewrite render_tick_last, render_tick_counts_lookup.
    rewrite bool_decide_eq_false_2 by done. by destruct (message_counts s !! k).
Qed.

Lemma delivered_repeat k t n : delivered k (repeat (Deliver k t) n) = Z.of_nat n.
Proof.
  induction n as [|n IH]; [reflexivity|].
  cbn [repeat delivered]. rewrite String.eqb_refl, IH. lia.
Qed.

Lemma heartbeat_monitored : "HEARTBEAT" ∈ monitored_messages.
Proof. apply is_monitored_elem. reflexivity. Qed.

Lemma initial_count t0 k : count_of (initial_session t0) k = 0.
Proof. reflexivity. Qed.

Lemma count_of_run_initial t0 inputs k :
  k ∈ monitored_messages ->
  count_of (run (initial_session t0) inputs) k = delivered k inputs mod UINT_MODULUS.
Proof.
  intros Hk. rewrite count_of_run, initial_count; [done | done |].
  rewrite initial_count. split; [lia | reflexivity].
Qed.

Lemma flood_delivered : delivered "HEARTBEAT" heartbeat_flood = UINT_MODULUS.
Proof.
  unfold heartbeat_flood. rewrite delivered_repeat.
  apply Z2Nat.id. discriminate.
Qed.

Lemma flood_count t0 : count_of (run (initial_session t0) heartbeat_flood) "HEARTBEAT" = 0.
Proof.
  rewrite count_of_run_initial by apply heartbeat_monitored.
  rewrite flood_delivered. reflexivity.
Qed.

(** ** C1: what the callback counts *)

(** C1, as stated, fails: after 2^32 deliveries of HEARTBEAT the [unsigned]
    count has wrapped to 0 and is not the number of deliveries. *)
Lemma count_wraps_on_flood :
  "HEARTBEAT" ∈ monitored_messages ∧
  count_of (run (initial_session 0) heartbeat_flood) "HEARTBEAT"
    ≠ delivered "HEARTBEAT" heartbeat_flood.
Proof.
  split; [apply heartbeat_monitored|].
  rewrite flood_count, flood_delivered. discriminate.
Qed.

(** C1 (amended): after any sequence of callbacks and render ticks, the count
    of a monitored name is the number of deliveries of that name modulo 2^32,
    hence exactly that number while it is below 2^32; an unmonitored name has
    no entry in either map, and a callback for it leaves the session as it
    was. *)
Theorem count_is_deliveries_modulo (t0 : Z) (inputs : list input) :
  (forall name, name ∈ monitored_messages ->
     count_of (run (initial_session t0) inputs) name
       = delivered name inputs mod UINT_MODULUS) ∧
  (forall name, name ∈ monitored_messages ->
     delivered name inputs < UINT_MODULUS ->
     count_of (run (initial_session t0) inputs) name = delivered name inputs) ∧
  (forall name, name ∉ monitored_messages ->
     message_counts (run (initial_session t0) inputs) !! name = None ∧
     last_message_time (run (initial_session t0) inputs) !! name = None) ∧
  (forall s name now, name ∉ monitored_messages -> on_message s name now = s).
Proof.
  repeat split.
  - intros name Hn. by apply count_of_run_initial.
  - intros name Hn Hlt. rewrite count_of_run_initial by done.
    apply Z.mod_small. split; [apply delivered_nonneg | done].
  - by destruct (unmonitored_untouched inputs (initial_session t0) name) as [-> _].
  - by destruct (unmonitored_untouched inputs (initial_session t0) name) as [_ ->].
  - intros s name now Hn. by apply on_message_unmonitored.
Qed.

Lemma count_is_deliveries_modulo_witness :
  "HEARTBEAT" ∈ monitored_messages ∧
  delivered "HEARTBEAT" three_heartbeats < UINT_MODULUS ∧
  count_of (run (initial_session 0) three_heartbeats) "HEARTBEAT" = 3.
Proof.
  split; [apply heartbeat_monitored|]. split; [reflexivity|].
  apply (proj1 (proj2 (count_is_deliveries_modulo 0 three_heartbeats)));
    [apply heartbeat_monitored | reflexivity].
Defined.

(** ** C10: last-seen time against count *)

(** C10, as stated, fails: after 2^32 deliveries HEARTBEAT has a last-seen
    time and a count of 0. *)
Lemma last_seen_with_zero_count :
  ¬ (is_Some (last_message_time (run (initial_session 0) heartbeat_flood) !! "HEARTBEAT")
     <-> 1 <= count_of (run (initial_session 0) heartbeat_flood) "HEARTBEAT").
Proof.
  rewrite flood_count. intros [H _].
  assert (1 <= 0) as Habs; [|lia].
  apply H. apply last_seen_run. right.
  split; [apply heartbeat_monitored|]. rewrite flood_delivered. reflexivity.
Qed.

(** C10 (amended): in every reachable state a name has a last-seen time if
    and only if it is monitored and has been delivered at least once; a count
    of at least 1 always comes with a last-seen time, and while fewer than
    2^32 deliveries of the name were made the converse holds too. A render
    tick leaves the last-seen times and every count as they were, adding only
    entries of value 0 for monitored names without one. *)
Theorem last_seen_iff_delivered (t0 : Z) (inputs : list input) (name : string) :
  (is_Some (last_message_time (run (initial_session t0) inputs) !! name)
     <-> name ∈ monitored_messages ∧ 0 < delivered name inputs) ∧
  (1 <= count_of (run (initial_session t0) inputs) name ->
     is_Some (last_message_time (run (initial_session t0) inputs) !! name)) ∧
  (delivered name inputs < UINT_MODULUS ->
     (is_Some (last_message_time (run (initial_session t0) inputs) !! name)
        <-> 1 <= count_of (run (initial_session t0) inputs) name)) ∧
  (forall s now,
     last_message_time (fst (render_tick s now)) = last_message_time s ∧
     (forall k, count_of (fst (render_tick s now)) k = count_of s k) ∧
     (forall k, message_counts s !! k = None -> k ∈ monitored_messages ->
        message_counts (fst (render_tick s now)) !! k = Some 0)).
Proof.
  assert (Hseen : is_Some (last_message_time (run (initial_session t0) inputs) !! name)
                  <-> name ∈ monitored_messages ∧ 0 < delivered name inputs).
  { rewrite last_seen_run. cbn [initial_session last_message_time].
    rewrite lookup_empty. split; [intros [H|H]; [by destruct H | done] | by right]. }
  assert (Hpos : 1 <= count_of (run (initial_session t0) inputs) name ->
                 name ∈ monitored_messages ∧ 0 < delivered name inputs).
  { intros Hc. destruct (decide (name ∈ monitored_messages)) as [Hn|Hn].
    - split; [done|]. rewrite count_of_run_initial in Hc by done.
      pose proof (delivered_nonneg name inputs) as Hd.
      destruct (decide (delivered name inputs = 0)) as [E|E]; [|lia].
      rewrite E in Hc. change (0 mod UINT_MODULUS) with 0 in Hc. lia.
    - unfold count_of in Hc.
      destruct (unmonitored_untouched inputs (initial_session t0) name Hn) as [E _].
      rewrite E in Hc. cbn [initial_session message_counts] in Hc.
      rewrite lookup_empty in Hc. cbn [default] in Hc. lia. }
  split; [exact Hseen|]. split; [intros Hc; apply Hseen, Hpos, Hc|].
  split.
  - intros Hlt. rewrite Hseen. split; [|exact Hpos].
    intros [Hn Hd]. rewrite count_of_run_initial by done.
    rewrite Z.mod_small; lia.
  - intros s now. split; [apply render_tick_last|].
    split; [intros k; apply render_tick_count|].
    intros k Hk Hn. rewrite render_tick_counts_lookup, Hk.
    by rewrite bool_decide_eq_true_2.
Qed.

Lemma last_seen_iff_delivered_witness :
  delivered "HEARTBEAT" three_heartbeats < UINT_MODULUS ∧
  (is_Some (last_message_time (run (initial_session 0) three_heartbeats) !! "HEARTBEAT")
     <-> 1 <= count_of (run (initial_session 0) three_heartbeats) "HEARTBEAT").
Proof.
  split; [reflexivity|].
  apply (proj1 (proj2 (proj2 (last_seen_iff_delivered 0 three_heartbeats "HEARTBEAT")))).
  reflexivity.
Defined.

(** ** What a render tick reads and prints *)

Lemma render_rows_names names counts times e t :
  map row_name (snd (render_rows names counts times e t)) = names.
Proof.
  revert counts. induction names as [|k rest IH]; intros counts; cbn [render_rows]; [done|].
  unfold render_row. destruct (counts_index counts k) as [v m'].
  specialize (IH m'). destruct (render_rows rest m' times e t) as [c2 rs].
  cbn [snd map row_name] in *. by rewrite IH.
Qed.

Lemma render_rows_row names times e t : forall counts r,
  r ∈ snd (render_rows names counts times e t) ->
  row_name r ∈ names ∧
  row_count r = default 0 (counts !! row_name r) ∧
  row_rate r = messages_per_second (row_count r) e ∧
  row_last_seen r = last_seen times (row_name r) t.
Proof.
  induction names as [|k rest IH]; intros counts r; cbn [render_rows].
  - cbn [snd]. intros H. by apply elem_of_nil in H.
  - unfold render_row.
    pose proof (counts_index_value counts k) as Hv.
    pose proof (counts_index_lookup counts k) as Hl.
    destruct (counts_index counts k) as [v m']. cbn [fst snd] in Hv, Hl.
    specialize (IH m' r). destruct (render_rows rest m' times e t) as [c2 rs].
    cbn [snd] in *. intros [->|Hr]%elem_of_cons.
    + cbn [row_name row_count row_rate row_last_seen]. split; [by left | done].
    + destruct (IH Hr) as (Hn & Hc & Hrate & Hseen).
      split; [by right|]. split; [|done].
      rewrite Hc, Hl. destruct (counts !! row_name r); [done|]. by case_bool_decide.
Qed.

(** The rows of a tick, read off the statistics. *)
Lemma render_rows_closed_form names times e t : forall counts,
  snd (render_rows names counts times e t) =
  map (fun name =>
         mkRow name (default 0 (counts !! name))
               (messages_per_second (default 0 (counts !! name)) e)
               (last_seen times name t)) names.
Proof.
  induction names as [|k rest IH]; intros counts; cbn [render_rows]; [done|].
  unfold render_row.
  pose proof (counts_index_value counts k) as Hv.
  pose proof (counts_index_lookup counts k) as Hl.
  destruct (counts_index counts k) as [v m']. cbn [fst snd] in Hv, Hl. subst v.
  specialize (IH m'). destruct (render_rows rest m' times e t) as [c2 rs].
  cbn [snd map] in *. f_equal. rewrite IH.
  apply map_ext. intros name. rewrite Hl.
  destruct (counts !! name); [done|]. by case_bool_decide.
Qed.

Lemma tick_rows_row s now r :
  r ∈ snd (tick_rows s now) ->
  row_name r ∈ monitored_messages ∧
  row_count r = count_of s (row_name r) ∧
  row_rate r = messages_per_second (row_count r)
                 (duration_cast_seconds (now - start_time s)) ∧
  row_last_seen r = last_seen (last_message_time s) (row_name r) now.
Proof. apply render_rows_row. Qed.

Lemma tick_rows_counts_lookup s now k :
  fst (tick_rows s now) !! k =
  match message_counts s !! k with
  | Some v => Some v
  | None => if bool_decide (k ∈ monitored_messages) then Some 0 else None
  end.
Proof. apply render_rows_lookup. Qed.

Lemma tick_counts_nonempty s now : fst (tick_rows s now) ≠ ∅.
Proof.
  intros E. pose proof (tick_rows_counts_lookup s now "HEARTBEAT") as H.
  rewrite E, lookup_empty in H.
  rewrite bool_decide_eq_true_2 in H by apply heartbeat_monitored.
  by destruct (message_counts s !! "HEARTBEAT").
Qed.

Lemma status_message_silent s now : status_message (fst (tick_rows s now)) = [].
Proof.
  unfold status_message. rewrite bool_decide_eq_false_2; [done | apply tick_counts_nonempty].
Qed.

(** The texts a tick writes. *)
Lemma render_tick_effects s now :
  snd (render_tick s now) =
  SleepFor (1 * PERIODS_PER_SECOND) :: Lock ::
    (map Cout ([ clear_screen; table_top; table_title;
                 table_runtime (cout_left s) (duration_cast_seconds (now - start_time s));
                 table_rule_top; table_columns; table_rule_mid ]
               ++ map row_text (snd (tick_rows s now)) ++ [ table_bottom ])
     ++ [ Flush; Unlock ])%list.
Proof.
  unfold render_tick. pose proof (status_message_silent s now) as Hs.
  destruct (tick_rows s now) as [c rs]. cbn [fst snd] in *. rewrite Hs.
  unfold table_header. rewrite !map_app, map_map. cbn [map app]. 
  rewrite <- !app_assoc. reflexivity.
Qed.

(** The rows of a tick as texts, read off the session. *)
Lemma tick_row_texts s now :
  map row_text (snd (tick_rows s now))
  = map (fun name =>
           format_row name (count_of s name)
             (messages_per_second (count_of s name)
                (duration_cast_seconds (now - start_time s)))
             (last_seen (last_message_time s) name now))
        monitored_messages.
Proof.
  unfold tick_rows. rewrite render_rows_closed_form, map_map. reflexivity.
Qed.

Lemma writes_under_lock_couts texts rest :
  writes_under_lock true (map Cout texts ++ rest) = (texts ++ writes_under_lock true rest)%list.
Proof. induction texts as [|x l IH]; [done|]. cbn [map app writes_under_lock]. by rewrite IH. Qed.

Lemma writes_without_lock_couts texts rest :
  writes_without_lock true (map Cout texts ++ rest) = writes_without_lock true rest.
Proof. induction texts as [|x l IH]; [done|]. cbn [map app writes_without_lock]. by rewrite IH. Qed.

Lemma lock_after_couts held texts rest :
  lock_after held (map Cout texts ++ rest) = lock_after held rest.
Proof. induction texts as [|x l IH]; [done|]. cbn [map app lock_after]. by rewrite IH. Qed.

(** ** C2: the lock during a render tick *)

Lemma lock_after_take_couts texts : forall j,
  lock_after true (take j (map Cout texts ++ [ Flush; Unlock ]))
  = (j <? length texts + 2)%nat.
Proof.
  induction texts as [|x l IH]; intros j.
  - destruct j as [|[|j]]; [done | done |]. by rewrite firstn_all2 by (cbn; lia).
  - destruct j as [|j]; [done|]. cbn [map app take lock_after length]. apply IH.
Qed.

(** C2, as stated, fails: on the first tick of a session the table is written
    to the console while the render loop holds [stats_mutex]. *)
Lemma first_tick_writes_under_lock :
  writes_under_lock false (snd (render_tick (initial_session 0) 1000000000)) ≠ [].
Proof. vm_compute. discriminate. Qed.

(** C2 (amended): a render tick sees the statistics consistently, as one
    state of the maps: what it writes is the header, then for each monitored
    name, in list order, the row of the count and last-seen time that the
    session holds for it when the tick runs, then the bottom line. But it
    writes all of it with [stats_mutex] held: it sleeps for a second without
    the lock, takes the lock, writes the whole table while holding it,
    flushes, and only then releases it. Every text of the tick is written
    under the lock and none outside it; a callback, which starts by taking
    the same lock, can proceed before the tick's second effect and after its
    last one, and at no point in between: it waits for the formatting and
    the output of a tick, and never for its sleep. *)
Theorem tick_writes_under_lock (s : Session) (now : Z) :
  exists texts,
    texts
      = ([ clear_screen; table_top; table_title;
           table_runtime (cout_left s) (duration_cast_seconds (now - start_time s));
           table_rule_top; table_columns; table_rule_mid ]
         ++ map (fun name =>
                   format_row name (count_of s name)
                     (messages_per_second (count_of s name)
                        (duration_cast_seconds (now - start_time s)))
                     (last_seen (last_message_time s) name now))
                monitored_messages
         ++ [ table_bottom ])%list ∧
    snd (render_tick s now)
      = SleepFor (1 * PERIODS_PER_SECOND) :: Lock :: (map Cout texts ++ [ Flush; Unlock ])%list ∧
    texts ≠ [] ∧
    writes_under_lock false (snd (render_tick s now)) = texts ∧
    writes_without_lock false (snd (render_tick s now)) = [] ∧
    lock_after false (snd (render_tick s now)) = false ∧
    (forall k : nat,
       can_proceed (lock_after false (take k (snd (render_tick s now)))) callback_effects
       = negb ((2 <=? k)%nat && (k <? length (snd (render_tick s now)))%nat)).
Proof.
  eexists. split; [reflexivity|].
  assert (Heffs : snd (render_tick s now)
            = SleepFor (1 * PERIODS_PER_SECOND) :: Lock ::
              (map Cout
                 ([ clear_screen; table_top; table_title;
                    table_runtime (cout_left s) (duration_cast_seconds (now - start_time s));
                    table_rule_top; table_columns; table_rule_mid ]
                  ++ map (fun name =>
                            format_row name (count_of s name)
                              (messages_per_second (count_of s name)
                                 (duration_cast_seconds (now - start_time s)))
                              (last_seen (last_message_time s) name now))
                         monitored_messages
                  ++ [ table_bottom ]) ++ [ Flush; Unlock ])%list).
  { rewrite render_tick_effects, tick_row_texts. reflexivity. }
  split; [exact Heffs|]. split; [discriminate|]. rewrite Heffs.
  cbn [writes_under_lock writes_without_lock lock_after].
  rewrite writes_under_lock_couts, writes_without_lock_couts, lock_after_couts.
  cbn [writes_under_lock writes_without_lock lock_after].
  rewrite app_nil_r. do 3 (split; [done|]).
  intros k. cbn [callback_effects can_proceed]. f_equal.
  destruct k as [|[|j]]; [done | done |].
  cbn [take lock_after length]. rewrite lock_after_take_couts.
  rewrite (length_app (map Cout _) [ Flush; Unlock ]), length_map.
  generalize (length (A := string)); intros len.
  cbn [length Nat.leb andb]. apply eq_iff_eq_true. rewrite !Nat.ltb_lt. lia.
Qed.

(** ** C3: entries of the count map *)

(** C3 (code at the failing input): a render tick on a fresh session, in
    which nothing was delivered, leaves an entry of value 0 in the count map
    for each of the four monitored names, because line 139 reads the map with
    [operator[]]. *)
Theorem tick_creates_count_entries (t0 now : Z) :
  Forall (fun name =>
            delivered name [ Tick now ] = 0 ∧
            message_counts (initial_session t0) !! name = None ∧
            message_counts (run (initial_session t0) [ Tick now ]) !! name = Some 0)
         monitored_messages.
Proof.
  apply Forall_forall. intros name Hn. split; [done|]. split; [done|].
  cbn [run fold_left handle]. rewrite render_tick_counts_lookup.
  cbn [initial_session message_counts]. rewrite lookup_empty.
  by rewrite bool_decide_eq_true_2.
Qed.

(** ** C4: the warning under the table *)

Lemma warning_differs_from_row r : warning_line ≠ row_text r.
Proof. intros H. apply (f_equal (String.get 0)) in H. discriminate H. Qed.

(** C4 (code at the failing input): whatever the session, and so also when
    no monitored message was ever received, the count map is not empty when
    line 165 tests it, and the tick does not print the warning. *)
Theorem warning_never_printed (s : Session) (now : Z) :
  status_message (fst (tick_rows s now)) = [] ∧
  Cout warning_line ∉ snd (render_tick s now).
Proof.
  split; [apply status_message_silent|].
  rewrite render_tick_effects. intros H.
  apply elem_of_cons in H as [H|H]; [discriminate H|].
  apply elem_of_cons in H as [H|H]; [discriminate H|].
  apply elem_of_app in H as [H|H].
  - apply list_elem_of_fmap_1 in H as (text & E & H). injection E as <-.
    apply elem_of_app in H as [H|H].
    + repeat (apply elem_of_cons in H as [H|H];
              [apply (f_equal (String.get 0)) in H; discriminate H|]).
      by apply elem_of_nil in H.
    + apply elem_of_app in H as [H|H].
      * apply list_elem_of_fmap_1 in H as (r & E & _). by apply warning_differs_from_row in E.
      * apply elem_of_cons in H as [H|H]; [discriminate H|]. by apply elem_of_nil in H.
  - repeat (apply elem_of_cons in H as [H|H]; [discriminate H|]). by apply elem_of_nil in H.
Qed.

(** The first tick of a session without messages prints the table and
    nothing after its bottom line. *)
Example first_tick_shows_no_warning :
  console_text (snd (render_tick (initial_session 0) 1000000000))
  = clear_screen ++ table_top ++ table_title ++ table_runtime false 1
    ++ table_rule_top ++ table_columns ++ table_rule_mid
    ++ format_row "OPTICAL_FLOW" 0 0 "Never"
    ++ format_row "OPTICAL_FLOW_RAD" 0 0 "Never"
    ++ format_row "DISTANCE_SENSOR" 0 0 "Never"
    ++ format_row "HEARTBEAT" 0 0 "Never"
    ++ table_bottom.
Proof. vm_compute. reflexivity. Qed.

(** ** C8: the last-seen column *)

Lemma row_is_printed s now r :
  r ∈ snd (tick_rows s now) -> Cout (row_text r) ∈ snd (render_tick s now).
Proof.
  intros Hr. rewrite render_tick_effects.
  do 2 apply list_elem_of_further. apply elem_of_app. left.
  apply (list_elem_of_fmap_2 Cout). apply elem_of_app. right.
  apply elem_of_app. left. by apply (list_elem_of_fmap_2 row_text).
Qed.

(** C8: a tick prints one row per monitored name, in the order of the list;
    the last column of a row is "Never" for a name without a last-seen time,
    and otherwise, with deltaMs the milliseconds between the last-seen time
    and the tick's clock reading, "<deltaMs> ms ago" when deltaMs < 1000 and
    "<deltaMs / 1000> s ago" (truncating) when not. A delta of 999 ms gives
    "999 ms ago" and a delta of 1000 ms gives "1 s ago". *)
Theorem recency_text (s : Session) (now : Z) :
  map row_name (snd (tick_rows s now)) = monitored_messages ∧
  (forall r, r ∈ snd (tick_rows s now) ->
     Cout (row_text r) ∈ snd (render_tick s now) ∧
     match last_message_time s !! row_name r with
     | None => row_last_seen r = "Never"
     | Some t =>
         (duration_cast_milliseconds (now - t) < 1000 ->
            row_last_seen r
              = to_string (duration_cast_milliseconds (now - t)) ++ " ms ago") ∧
         (1000 <= duration_cast_milliseconds (now - t) ->
            row_last_seen r
              = to_string (Z.quot (duration_cast_milliseconds (now - t)) 1000) ++ " s ago")
     end) ∧
  (forall times name t,
     times !! name = Some t ->
     (duration_cast_milliseconds (now - t) = 999 ->
        last_seen times name now = "999 ms ago") ∧
     (duration_cast_milliseconds (now - t) = 1000 ->
        last_seen times name now = "1 s ago")).
Proof.
  split; [apply render_rows_names|]. split.
  - intros r Hr. split; [by apply row_is_printed|].
    destruct (tick_rows_row s now r Hr) as (_ & _ & _ & ->).
    unfold last_seen. destruct (last_message_time s !! row_name r) as [t|]; [|done].
    split; intros Hd.
    + by rewrite (proj2 (Z.ltb_lt _ _) Hd).
    + by rewrite (proj2 (Z.ltb_ge _ _) Hd).
  - intros times name t Ht. unfold last_seen. rewrite Ht.
    split; intros ->; reflexivity.
Qed.

Lemma heartbeat_row_at_one_second :
  heartbeat_row ∈ snd (tick_rows after_three_heartbeats 1000000000).
Proof. apply (list_elem_of_lookup_2 _ 3%nat). vm_compute. reflexivity. Qed.

Lemma recency_text_witness :
  heartbeat_row ∈ snd (tick_rows after_three_heartbeats 1000000000) ∧
  duration_cast_milliseconds (1000000000 - 900000000) < 1000 ∧
  row_last_seen heartbeat_row = "100 ms ago".
Proof.
  split; [apply heartbeat_row_at_one_second|]. split; [reflexivity|].
  pose proof (proj2 (proj1 (proj2 (recency_text after_three_heartbeats 1000000000))
                       heartbeat_row heartbeat_row_at_one_second)) as H.
  vm_compute in H. apply H. reflexivity.
Defined.

(** ** C9: the rate column *)

(** The conversion to [double] of an integer below 2^63 is its correctly
    rounded binary64 value. *)
Lemma double_of_Z_exact z :
  0 <= z < 2 ^ 63 ->
  Prim2SF (double_of_Z z) = binary_normalize prec emax z 0 false.
Proof.
  intros Hz. unfold double_of_Z.
  rewrite (proj2 (Z.ltb_ge z 0)) by lia.
  rewrite of_uint63_spec, Uint63.of_Z_spec. rewrite Z.mod_small; [done|].
  exact Hz.
Qed.

(** The rate of line 140 is the binary64 quotient of count and seconds. *)
Lemma rate_is_ieee_quotient count elapsed :
  0 <= count < UINT_MODULUS -> 0 < elapsed < 2 ^ 63 ->
  Prim2SF (messages_per_second count elapsed)
  = SF64div (binary_normalize prec emax count 0 false)
            (binary_normalize prec emax elapsed 0 false).
Proof.
  intros Hc He. unfold messages_per_second.
  rewrite (proj2 (Z.ltb_lt 0 elapsed)) by lia.
  rewrite div_spec, !double_of_Z_exact; [done | lia |].
  unfold UINT_MODULUS, UINT_BITS in Hc. lia.
Qed.

(** C9: a tick has one row per monitored name, in list order, and prints
    it; in every row the count is the session's count of the row's name, the
    rate is that count divided by the elapsed whole seconds when these are
    positive, and 0.0 when they are 0; the division is only made with a
    divisor other than 0. The quotient is the IEEE 754 binary64 quotient of
    the two integers: 25 messages in 10 s give 2.5, printed as 2.50, and no
    elapsed second gives 0.0, printed as 0.00. *)
Theorem rate_is_guarded (s : Session) (now : Z) :
  map row_name (snd (tick_rows s now)) = monitored_messages ∧
  (forall r, r ∈ snd (tick_rows s now) ->
     row_count r = count_of s (row_name r) ∧
     (0 < duration_cast_seconds (now - start_time s) ->
        row_rate r = PrimFloat.div (double_of_Z (row_count r))
                       (double_of_Z (duration_cast_seconds (now - start_time s)))) ∧
     (duration_cast_seconds (now - start_time s) = 0 -> row_rate r = 0%float) ∧
     messages_per_second_checked (row_count r) (duration_cast_seconds (now - start_time s))
       = Some (row_rate r) ∧
     Cout ("│ " ++ setw_left 26 (row_name r) ++ " │ "
           ++ setw_right 5 (to_string (count_of s (row_name r))) ++ " │ "
           ++ setw_right 9 (format_fixed2 (row_rate r)) ++ " │ "
           ++ setw_left 12 (row_last_seen r) ++ " │" ++ nl)
       ∈ snd (render_tick s now)) ∧
  (forall count elapsed,
     0 <= count < UINT_MODULUS -> 0 < elapsed < 2 ^ 63 ->
     Prim2SF (messages_per_second count elapsed)
     = SF64div (binary_normalize prec emax count 0 false)
               (binary_normalize prec emax elapsed 0 false)) ∧
  messages_per_second 25 10 = 2.5%float ∧
  format_fixed2 (messages_per_second 25 10) = "2.50" ∧
  format_fixed2 (messages_per_second 2 3) = "0.67" ∧
  (forall count,
     messages_per_second count 0 = 0%float ∧
     format_fixed2 (messages_per_second count 0) = "0.00").
Proof.
  split; [apply render_rows_names|]. split.
  - intros r Hr. pose proof (row_is_printed s now r Hr) as Hp.
    destruct (tick_rows_row s now r Hr) as (_ & Hc & Hrate & _).
    split; [done|]. rewrite Hrate.
    unfold messages_per_second, messages_per_second_checked, checked_div.
    split; [|split; [|split]].
    + intros He. by rewrite (proj2 (Z.ltb_lt _ _) He).
    + intros ->. reflexivity.
    + destruct (0 <? _) eqn:E; [|done].
      apply Z.ltb_lt in E. rewrite (proj2 (Z.eqb_neq _ 0)); [done | lia].
    + unfold row_text, format_row in Hp. rewrite Hc, Hrate in Hp. exact Hp.
  - split; [apply rate_is_ieee_quotient|].
    split; [reflexivity|]. split; [vm_compute; reflexivity|].
    split; [vm_compute; reflexivity|]. intros count. split; reflexivity.
Qed.

Lemma rate_is_guarded_witness :
  heartbeat_row ∈ snd (tick_rows after_three_heartbeats 1000000000) ∧
  0 < duration_cast_seconds (1000000000 - start_time after_three_heartbeats) ∧
  row_rate heartbeat_row = 3%float ∧
  Cout ("│ HEARTBEAT                  │     3 │      3.00 │ 100 ms ago   │" ++ nl)
    ∈ snd (render_tick after_three_heartbeats 1000000000).
Proof.
  split; [apply heartbeat_row_at_one_second|]. split; [reflexivity|].
  destruct (proj1 (proj2 (rate_is_guarded after_three_heartbeats 1000000000))
              heartbeat_row heartbeat_row_at_one_second) as (_ & Hrate & _ & _ & Hp).
  split; [exact (Hrate eq_refl) | exact Hp].
Defined.

(** With 25 messages in 10 s the rate column shows 2.50. *)
Example rate_25_over_10 : format_fixed2 (messages_per_second 25 10) = "2.50".
Proof. vm_compute. reflexivity. Qed.

(** With no whole second elapsed the rate column shows 0.00. *)
Example rate_at_zero_elapsed count : format_fixed2 (messages_per_second count 0) = "0.00".
Proof. reflexivity. Qed.

(** ** C5: the render loop does not end *)

Lemma run_snoc s inputs i : run s (inputs ++ [i]) = handle (run s inputs) i.
Proof. unfold run. by rewrite fold_left_app. Qed.

Lemma loop_reaches_only_loop s c :
  rtc step (InLoop s) c -> exists inputs, c = InLoop (run s inputs).
Proof.
  revert c. apply (rtc_ind_r (fun c => exists inputs, c = InLoop (run s inputs))).
  - by exists [].
  - intros c1 c2 _ Hstep [inputs ->]. inversion Hstep; subst.
    + exists (inputs ++ [Deliver message_name now])%list. by rewrite run_snoc.
    + exists (inputs ++ [Tick current_time])%list. by rewrite run_snoc.
Qed.

(** C5: whatever is reached from the head of the render loop is again the
    head of the render loop, after some callbacks and iterations: never the
    unsubscribe call on line 174, never a return with status 0; and from
    there the program can always take another step. *)
Theorem render_loop_never_exits (s : Session) (c : config) :
  rtc step (InLoop s) c ->
  (exists inputs, c = InLoop (run s inputs)) ∧
  c ≠ Exited 0 ∧
  (forall s', c ≠ AfterLoop s') ∧
  (exists c', step c c').
Proof.
  intros H. destruct (loop_reaches_only_loop s c H) as [inputs ->].
  split; [by exists inputs|]. split; [discriminate|]. split; [discriminate|].
  eexists. apply (step_tick _ 0).
Qed.

Lemma render_loop_never_exits_witness :
  rtc step (InLoop (initial_session 0))
           (InLoop (fst (render_tick (initial_session 0) 1000000000))) ∧
  InLoop (fst (render_tick (initial_session 0) 1000000000)) ≠ Exited 0.
Proof.
  assert (H : rtc step (InLoop (initial_session 0))
                (InLoop (fst (render_tick (initial_session 0) 1000000000)))).
  { apply rtc_once. apply step_tick. }
  split; [exact H|].
  exact (proj1 (proj2 (render_loop_never_exits _ _ H))).
Defined.

Lemma exited_is_final status c : rtc step (Exited status) c -> c = Exited status.
Proof.
  intros H. inversion H as [|? c1 ? Hstep _]; [done|]. inversion Hstep.
Qed.

(** X18: from its start the program returns 1 or does not return: whatever
    is reached from the outcome of the start-up, it is not a return of 0. *)
Lemma main_never_returns_zero fuel w cfg effs c :
  main fuel w = Some (cfg, effs) -> rtc step cfg c -> c ≠ Exited 0.
Proof.
  unfold main. destruct (negb _).
  { intros [= <- _] H. by rewrite (exited_is_final _ _ H). }
  destruct (add_any_connection w).
  2:{ intros [= <- _] H. by rewrite (exited_is_final _ _ H). }
  destruct (wait_for_system _ _ _ _ _) as [r|]; [|discriminate].
  unfold first_system, start_monitoring.
  destruct (0 <? systems_size w (wait_queries r))%nat.
  { intros [= <- _] H. by destruct (loop_reaches_only_loop _ _ H) as [? ->]. }
  destruct (0 <? systems_size w (S (wait_queries r)))%nat.
  { intros [= <- _] H. by destruct (loop_reaches_only_loop _ _ H) as [? ->]. }
  intros [= <- _] H. by rewrite (exited_is_final _ _ H).
Qed.

(** ** C7 and C6: waiting for a system *)

Lemma timeout_test d :
  (10 <? duration_cast_seconds d) = true <-> 11 * PERIODS_PER_SECOND <= d.
Proof.
  unfold duration_cast_seconds, PERIODS_PER_SECOND. rewrite Z.ltb_lt.
  destruct (Z.le_gt_cases 0 d) as [Hd|Hd].
  - rewrite Z.quot_div_nonneg by lia. split; intros H.
    + assert (11 <= d / 1000000000) as H' by lia.
      pose proof (Z.mul_div_le d 1000000000 ltac:(lia)). lia.
    + assert (11 <= d / 1000000000); [|lia].
      apply Z.div_le_lower_bound; lia.
  - split; [|lia]. intros H.
    pose proof (Z.quot_pos (- d) 1000000000 ltac:(lia) ltac:(lia)) as Hq.
    rewrite Z.quot_opp_l in Hq by lia. lia.
Qed.

Lemma clock_lower_bound w c :
  clock_advances w -> (c <= MAX_POLLS)%nat ->
  steady_clock_now w 0 + Z.of_nat c * POLL_PERIOD <= steady_clock_now w c.
Proof.
  intros Hadv. induction c as [|c IH]; intros Hc; [lia|].
  specialize (Hadv c ltac:(lia)). specialize (IH ltac:(lia)).
  unfold POLL_PERIOD, PERIODS_PER_MILLISECOND in *. lia.
Qed.

Lemma wait_in_silence w :
  clock_advances w -> (forall q, systems_size w q = O) ->
  forall n c q, (1 <= c <= MAX_POLLS)%nat -> (MAX_POLLS < n + c)%nat ->
  exists r polls,
    wait_for_system n w (steady_clock_now w 0) q c = Some r ∧
    wait_timed_out r = true ∧
    wait_effects r
      = (repeat (SleepFor POLL_PERIOD) (S polls)
         ++ [ Cout note_no_autopilot; Cout note_continuing ])%list.
Proof.
  intros Hadv Hsil. induction n as [|n IH]; intros c q Hc Hn.
  - unfold MAX_POLLS in *. lia.
  - cbn [wait_for_system]. rewrite Hsil. cbn [Nat.eqb].
    destruct (10 <? _) eqn:E.
    + eexists _, O. cbn [wait_timed_out wait_effects repeat app]. done.
    + assert (c < MAX_POLLS)%nat as Hlt.
      { destruct (decide (c = MAX_POLLS)) as [->|]; [|lia].
        exfalso. apply not_true_iff_false in E. apply E, timeout_test.
        pose proof (clock_lower_bound w MAX_POLLS Hadv ltac:(lia)) as Hb.
        unfold MAX_POLLS, POLL_PERIOD, PERIODS_PER_MILLISECOND, PERIODS_PER_SECOND in *.
        lia. }
      destruct (IH (S c) (S q)) as (r & polls & -> & Ht & He); [lia | lia |].
      eexists _, (S polls). cbn [wait_timed_out wait_effects].
      split; [done|]. split; [done|]. rewrite He. reflexivity.
Qed.

(** X14: when the wait is given up, the clock reading that ends it is the
    first one at least 11 s after [start_wait]. *)
Lemma wait_timeout_readings w start : forall n q c r,
  wait_for_system n w start q c = Some r ->
  wait_timed_out r = true ->
  exists earlier final,
    wait_readings r = (earlier ++ [ final ])%list ∧
    11 * PERIODS_PER_SECOND <= final - start ∧
    Forall (fun t => t - start < 11 * PERIODS_PER_SECOND) earlier.
Proof.
  induction n as [|n IH]; intros q c r; [discriminate|].
  cbn [wait_for_system]. destruct (Nat.eqb _ _).
  - destruct (10 <? _) eqn:E.
    + intros [= <-] _. exists [], (steady_clock_now w c).
      split; [done|]. split; [by apply timeout_test | constructor].
    + destruct (wait_for_system n w start (S q) (S c)) as [r'|] eqn:Hw; [|discriminate].
      intros [= <-]. cbn [wait_timed_out wait_readings]. intros Ht.
      destruct (IH _ _ _ Hw Ht) as (earlier & final & -> & Hf & He).
      exists (steady_clock_now w c :: earlier), final.
      split; [done|]. split; [done|]. constructor; [|done].
      apply not_true_iff_false in E. rewrite timeout_test in E. lia.
  - intros [= <-]. discriminate.
Qed.

(** C7 (code at the failing input): with no system and sleeps of exactly
    100 ms the loop reads the clock 110 times; at the 105th reading 10.5 s
    have gone by and the loop goes on, and it gives up only at the reading
    of 11 s, since line 53 compares whole seconds with [> 10]. *)
Theorem wait_runs_past_ten_seconds :
  exists r,
    wait_for_system MAX_POLLS silent_world (steady_clock_now silent_world 0) 0 1 = Some r ∧
    wait_timed_out r = true ∧
    length (wait_readings r) = 110%nat ∧
    wait_readings r !! 104%nat = Some (10500 * PERIODS_PER_MILLISECOND) ∧
    last (wait_readings r) = Some (11 * PERIODS_PER_SECOND).
Proof. eexists. split; [vm_compute; reflexivity|]. vm_compute. done. Qed.

(** C6: when no system shows up, the program gives up the wait with its
    note, goes on to listen, sleeps for the 2 s of grace, prints its warning
    and returns 1 without reaching the render loop; and whenever the two
    checks around the grace sleep both find no system, what follows the wait
    is that warning and the return of 1. *)
Theorem no_system_exits_nonzero (w : World) :
  (forall q c,
     systems_size w q = O -> systems_size w (S q) = O ->
     first_system w q c
     = (Exited 1, [ Cout listening_line; Flush; SleepFor GRACE_PERIOD;
                    Cout warning_no_system; Cout warning_make_sure ])) ∧
  (argc w = 2 ->
   add_any_connection w = Success ->
   clock_advances w ->
   (forall q, systems_size w q = O) ->
   forall fuel, (MAX_POLLS <= fuel)%nat ->
   exists polls,
     main fuel w
     = Some (Exited 1,
             ([ Cout ("Waiting for system to connect..." ++ nl); Flush ]
              ++ repeat (SleepFor POLL_PERIOD) (S polls)
              ++ [ Cout note_no_autopilot; Cout note_continuing;
                   Cout listening_line; Flush; SleepFor GRACE_PERIOD;
                   Cout warning_no_system; Cout warning_make_sure ])%list)).
Proof.
  split.
  - intros q c Hq HSq. unfold first_system. rewrite Hq, HSq. reflexivity.
  - intros Hargc Hconn Hadv Hsil fuel Hfuel.
    destruct (wait_in_silence w Hadv Hsil fuel 1 0) as (r & polls & Hw & _ & He);
      [unfold MAX_POLLS; lia | lia |].
    exists polls. unfold main. rewrite Hargc, Hconn, Hw. cbn [Z.eqb Pos.eqb negb].
    unfold first_system. rewrite !Hsil. cbn [Nat.ltb Nat.leb].
    rewrite He, <- !app_assoc. reflexivity.
Qed.

Lemma silent_world_advances : clock_advances silent_world.
Proof.
  intros c _. cbn [silent_world steady_clock_now].
  unfold POLL_PERIOD, PERIODS_PER_MILLISECOND. lia.
Qed.

Lemma no_system_exits_nonzero_witness :
  exists polls,
    main MAX_POLLS silent_world
    = Some (Exited 1,
            ([ Cout ("Waiting for system to connect..." ++ nl); Flush ]
             ++ repeat (SleepFor POLL_PERIOD) (S polls)
             ++ [ Cout note_no_autopilot; Cout note_continuing;
                  Cout listening_line; Flush; SleepFor GRACE_PERIOD;
                  Cout warning_no_system; Cout warning_make_sure ])%list).
Proof.
  apply (proj2 (no_system_exits_nonzero silent_world));
    [reflexivity | reflexivity | apply silent_world_advances | reflexivity
    | apply Nat.le_refl].
Defined.

(** ** Further properties of the callback *)

(** X1: the loop with its [break] on lines 103-108 answers true exactly for
    the names that are equal to an element of the list, whatever the list. *)
Theorem filter_loop_is_membership (names : list string) (message_name : string) :
  is_monitored names message_name = true <-> In message_name names.
Proof. rewrite is_monitored_elem. apply list_elem_of_In. Qed.

Lemma last_seen_run_value inputs : forall s name,
  last_message_time (run s inputs) !! name =
  if is_monitored monitored_messages name
  then last_delivery name inputs (last_message_time s !! name)
  else last_message_time s !! name.
Proof.
  induction inputs as [|i rest IH]; intros s name.
  - cbn [run fold_left last_delivery]. by destruct (is_monitored _ _).
  - change (run s (i :: rest)) with (run (handle s i) rest). rewrite IH.
    destruct (is_monitored monitored_messages name) eqn:Hname.
    + destruct i as [n t|t]; cbn [handle last_delivery].
      * destruct (String.eqb_spec n name) as [->|Hne].
        -- rewrite on_message_monitored by by apply is_monitored_elem.
           cbn [last_message_time]. by rewrite lookup_insert_eq.
        -- destruct (decide (n ∈ monitored_messages)) as [Hn|Hn].
           ++ rewrite on_message_monitored by done. cbn [last_message_time].
              by rewrite lookup_insert_ne.
           ++ by rewrite on_message_unmonitored.
      * by rewrite render_tick_last.
    + destruct i as [n t|t]; cbn [handle].
      * destruct (decide (n ∈ monitored_messages)) as [Hn|Hn].
        -- rewrite on_message_monitored by done. cbn [last_message_time].
           rewrite lookup_insert_ne; [done|]. intros ->.
           apply is_monitored_elem in Hn. congruence.
        -- by rewrite on_message_unmonitored.
      * by rewrite render_tick_last.
Qed.

(** X2: after any run from a fresh session, the last-seen time of a
    monitored name is the clock reading of the most recent delivery of that
    name, whatever was delivered or rendered in between, and names that the
    filter rejects have none. *)
Theorem last_seen_is_last_delivery (t0 : Z) (inputs : list input) (name : string) :
  last_message_time (run (initial_session t0) inputs) !! name =
  if is_monitored monitored_messages name then last_delivery name inputs None
  else None.
Proof.
  rewrite last_seen_run_value. cbn [initial_session last_message_time].
  by rewrite lookup_empty.
Qed.

Lemma handle_count_range s i k :
  0 <= count_of s k < UINT_MODULUS -> 0 <= count_of (handle s i) k < UINT_MODULUS.
Proof.
  intros Hr. destruct i as [n t|t]; cbn [handle].
  - rewrite on_message_count. case_bool_decide; [apply uint_incr_range | done].
  - by rewrite render_tick_count.
Qed.

(** X3: in every state reached from a fresh session the count read for any
    name is within the range of an [unsigned]. *)
Theorem count_stays_in_range (t0 : Z) (inputs : list input) (name : string) :
  0 <= count_of (run (initial_session t0) inputs) name < UINT_MODULUS.
Proof.
  assert (H : forall s, 0 <= count_of s name < UINT_MODULUS ->
                        0 <= count_of (run s inputs) name < UINT_MODULUS).
  { induction inputs as [|i rest IH]; intros s Hs; [done|].
    change (run s (i :: rest)) with (run (handle s i) rest).
    by apply IH, handle_count_range. }
  apply H. rewrite initial_count. split; [lia | reflexivity].
Qed.

Lemma counts_increment_commute m a b :
  counts_increment (counts_increment m a) b = counts_increment (counts_increment m b) a.
Proof.
  destruct (decide (a = b)) as [->|Hab]; [done|].
  apply map_eq. intros k. rewrite !counts_increment_lookup.
  repeat case_bool_decide; subst; congruence.
Qed.

(** X4: swapping two consecutive callbacks, each reading the clock when it
    runs (the first reads [t1], the second [t2] in either order), leaves the
    same count map; the last-seen times follow the order: of two different
    monitored names the one delivered first has [t1] and the other [t2]. *)
Theorem delivery_order_changes_only_times (s : Session) (a b : string) (t1 t2 : Z) :
  message_counts (on_message (on_message s a t1) b t2)
    = message_counts (on_message (on_message s b t1) a t2) ∧
  (a ≠ b -> a ∈ monitored_messages -> b ∈ monitored_messages ->
   last_message_time (on_message (on_message s a t1) b t2) !! a = Some t1 ∧
   last_message_time (on_message (on_message s a t1) b t2) !! b = Some t2 ∧
   last_message_time (on_message (on_message s b t1) a t2) !! a = Some t2 ∧
   last_message_time (on_message (on_message s b t1) a t2) !! b = Some t1).
Proof.
  split.
  - destruct (decide (a ∈ monitored_messages)) as [Ha|Ha];
      destruct (decide (b ∈ monitored_messages)) as [Hb|Hb];
      rewrite ?(on_message_unmonitored _ a), ?(on_message_unmonitored _ b) by done;
      rewrite ?(on_message_monitored _ a), ?(on_message_monitored _ b) by done;
      cbn [message_counts]; try reflexivity.
    apply counts_increment_commute.
  - intros Hab Ha Hb. rewrite !on_message_monitored by done.
    cbn [last_message_time].
    repeat split.
    + rewrite lookup_insert_ne by done. apply lookup_insert_eq.
    + apply lookup_insert_eq.
    + apply lookup_insert_eq.
    + rewrite lookup_insert_ne by done. apply lookup_insert_eq.
Qed.

Lemma delivery_order_changes_only_times_witness :
  "HEARTBEAT" ≠ "OPTICAL_FLOW" ∧
  last_message_time
    (on_message (on_message (initial_session 0) "HEARTBEAT" 5) "OPTICAL_FLOW" 7)
    !! "HEARTBEAT" = Some 5 ∧
  last_message_time
    (on_message (on_message (initial_session 0) "OPTICAL_FLOW" 5) "HEARTBEAT" 7)
    !! "HEARTBEAT" = Some 7.
Proof.
  assert (H : "HEARTBEAT" ≠ "OPTICAL_FLOW") by discriminate.
  split; [exact H|].
  destruct (proj2 (delivery_order_changes_only_times
                     (initial_session 0) "HEARTBEAT" "OPTICAL_FLOW" 5 7) H)
    as (H1 & _ & H3 & _).
  - apply is_monitored_elem. reflexivity.
  - apply is_monitored_elem. reflexivity.
  - split; [exact H1 | exact H3].
Defined.

(** ** Further properties of the render loop *)

Lemma render_tick_start_time s t : start_time (fst (render_tick s t)) = start_time s.
Proof. unfold render_tick. by destruct (tick_rows s t). Qed.

Lemma render_tick_cout_left s t : cout_left (fst (render_tick s t)) = true.
Proof. unfold render_tick. by destruct (tick_rows s t). Qed.

Lemma on_message_start_time s n t : start_time (on_message s n t) = start_time s.
Proof. unfold on_message. by destruct (is_monitored _ _). Qed.


Lemma on_message_last s n t :
  last_message_time (on_message s n t) =
  if is_monitored monitored_messages n then <[n := t]> (last_message_time s)
  else last_message_time s.
Proof. unfold on_message. by destruct (is_monitored _ _). Qed.

Lemma same_statistics_rows s1 s2 now :
  same_statistics s1 s2 -> snd (tick_rows s1 now) = snd (tick_rows s2 now).
Proof.
  intros (Hc & Hl & Hs). unfold tick_rows. rewrite !render_rows_closed_form.
  rewrite Hl, Hs. apply map_ext. intros name.
  change (default 0 (message_counts s1 !! name)) with (count_of s1 name).
  change (default 0 (message_counts s2 !! name)) with (count_of s2 name).
  by rewrite Hc.
Qed.

Lemma same_statistics_handle s1 s2 i :
  same_statistics s1 s2 -> same_statistics (handle s1 i) (handle s2 i).
Proof.
  intros (Hc & Hl & Hs). destruct i as [n t|t]; cbn [handle].
  - split; [|split].
    + intros k. rewrite !on_message_count, Hc. done.
    + rewrite !on_message_last, Hl. done.
    + by rewrite !on_message_start_time.
  - split; [|split].
    + intros k. by rewrite !render_tick_count.
    + by rewrite !render_tick_last.
    + by rewrite !render_tick_start_time.
Qed.

Lemma same_statistics_tick s1 s2 t :
  same_statistics s1 s2 -> same_statistics (fst (render_tick s1 t)) s2.
Proof.
  intros (Hc & Hl & Hs). split; [|split].
  - intros k. by rewrite render_tick_count.
  - by rewrite render_tick_last.
  - by rewrite render_tick_start_time.
Qed.

Lemma run_without_ticks inputs : forall s1 s2,
  same_statistics s1 s2 ->
  same_statistics (run s1 inputs) (run s2 (deliveries_only inputs)).
Proof.
  induction inputs as [|i rest IH]; intros s1 s2 H; [done|].
  change (run s1 (i :: rest)) with (run (handle s1 i) rest).
  destruct i as [n t|t]; cbn [deliveries_only List.filter is_delivery].
  - change (run s2 (Deliver n t :: List.filter is_delivery rest))
      with (run (handle s2 (Deliver n t)) (deliveries_only rest)).
    by apply IH, same_statistics_handle.
  - apply IH. cbn [handle]. by apply same_statistics_tick.
Qed.

(** X7: render ticks do not change what is counted or shown: after a run,
    counts, last-seen times and start time are those of the same run without
    its ticks, and a tick prints the same rows after either. *)
Theorem ticks_do_not_disturb_statistics (s : Session) (inputs : list input) (now : Z) :
  same_statistics (run s inputs) (run s (deliveries_only inputs)) ∧
  snd (tick_rows (run s inputs) now)
  = snd (tick_rows (run s (deliveries_only inputs)) now).
Proof.
  assert (H : same_statistics (run s inputs) (run s (deliveries_only inputs))).
  { apply run_without_ticks. by repeat split. }
  split; [exact H | by apply same_statistics_rows].
Qed.

(** X8: a render tick adds to the count map exactly the monitored names
    that had no entry, and a second tick right after it leaves the session
    as the first one left it. *)
Theorem second_tick_changes_nothing (s : Session) (t1 t2 : Z) :
  fst (render_tick (fst (render_tick s t1)) t2) = fst (render_tick s t1) ∧
  dom (message_counts (fst (render_tick s t1)))
  = dom (message_counts s) ∪ list_to_set monitored_messages.
Proof.
  split.
  - set (s1 := fst (render_tick s t1)).
    assert (Hc : message_counts (fst (render_tick s1 t2)) = message_counts s1).
    { apply map_eq. intros k. rewrite render_tick_counts_lookup.
      destruct (message_counts s1 !! k) eqn:E; [done|].
      unfold s1 in E. rewrite render_tick_counts_lookup in E.
      destruct (message_counts s !! k); [done|]. by case_bool_decide. }
    pose proof (render_tick_last s1 t2) as Hl.
    pose proof (render_tick_start_time s1 t2) as Hs.
    pose proof (render_tick_cout_left s1 t2) as Hf.
    pose proof (render_tick_cout_left s t1) as Hf1. fold s1 in Hf1.
    destruct (fst (render_tick s1 t2)) as [c l st f], s1 as [c1 l1 st1 f1].
    cbn in *. congruence.
  - apply set_eq. intros k. rewrite elem_of_union, !elem_of_dom, elem_of_list_to_set.
    rewrite render_tick_counts_lookup.
    destruct (message_counts s !! k) as [v|].
    + split; [intros _; left; by eexists | by eexists].
    + case_bool_decide as Hk.
      * split; [by right | by eexists].
      * split; [by intros [? ?] | intros [[? ?]|?]; done].
Qed.

(** X5: deliveries that the filter rejects have no effect on a run: the
    session is the one reached without them. *)
Theorem rejected_deliveries_can_be_dropped (s : Session) (inputs : list input) :
  run s inputs = run s (monitored_only inputs).
Proof.
  revert s. induction inputs as [|i rest IH]; intros s; [done|].
  change (run s (i :: rest)) with (run (handle s i) rest).
  cbn [monitored_only List.filter]. destruct (passes_filter i) eqn:E.
  - change (run s (i :: List.filter passes_filter rest))
      with (run (handle s i) (monitored_only rest)). apply IH.
  - destruct i as [n t|t]; [|discriminate]. cbn [passes_filter] in E.
    cbn [handle]. unfold on_message. rewrite E. apply IH.
Qed.

Lemma seen_has_count_step s i :
  dom (last_message_time s) ⊆ dom (message_counts s) ->
  dom (last_message_time (handle s i)) ⊆ dom (message_counts (handle s i)).
Proof.
  intros H k. rewrite !elem_of_dom. specialize (H k). rewrite !elem_of_dom in H.
  destruct i as [n t|t]; cbn [handle].
  - destruct (decide (n ∈ monitored_messages)) as [Hn|Hn].
    + rewrite on_message_monitored by done. cbn [message_counts last_message_time].
      rewrite counts_increment_lookup.
      destruct (decide (k = n)) as [->|Hne].
      * rewrite bool_decide_eq_true_2 by done. by eexists.
      * rewrite bool_decide_eq_false_2 by done. by rewrite lookup_insert_ne.
    + by rewrite on_message_unmonitored.
  - rewrite render_tick_last, render_tick_counts_lookup. intros Hk.
    destruct (H Hk) as [v ->]. by eexists.
Qed.

(** X6: in every state reached from a fresh session each name with a
    last-seen time has an entry in the count map. *)
Theorem every_seen_name_has_a_count (t0 : Z) (inputs : list input) :
  dom (last_message_time (run (initial_session t0) inputs))
  ⊆ dom (message_counts (run (initial_session t0) inputs)).
Proof.
  assert (H : forall s, dom (last_message_time s) ⊆ dom (message_counts s) ->
              dom (last_message_time (run s inputs)) ⊆ dom (message_counts (run s inputs))).
  { induction inputs as [|i rest IH]; intros s Hs; [done|].
    change (run s (i :: rest)) with (run (handle s i) rest).
    by apply IH, seen_has_count_step. }
  apply H. done.
Qed.




(** ** Further properties of the table *)

Lemma string_length_app (a b : string) :
  String.length (a ++ b) = (String.length a + String.length b)%nat.
Proof.
  induction a as [|c a IH]; [done|].
  change (String.length (String c (a ++ b)) = S (String.length a + String.length b)).
  cbn [String.length]. by rewrite IH.
Qed.

Lemma spaces_length n : String.length (spaces n) = n.
Proof. induction n as [|n IH]; [done|]. cbn [spaces String.length]. by rewrite IH. Qed.

Lemma setw_right_length w s :
  String.length (setw_right w s) = Nat.max w (String.length s).
Proof. unfold setw_right. rewrite string_length_app, spaces_length. lia. Qed.

Lemma setw_left_length w s :
  String.length (setw_left w s) = Nat.max w (String.length s).
Proof. unfold setw_left. rewrite string_length_app, spaces_length. lia. Qed.

(** X10: a row is as wide as the line of column titles, plus the
    characters by which its name, count, rate or last-seen text exceed
    their widths of 26, 5, 9 and 12: [std::setw] pads and never cuts. *)
Theorem row_width (msg_name : string) (count : Z) (rate : float) (seen : string) :
  String.length (format_row msg_name count rate seen)
  = (String.length table_columns
     + (String.length msg_name - 26)
     + (String.length (to_string count) - 5)
     + (String.length (format_fixed2 rate) - 9)
     + (String.length seen - 12))%nat.
Proof.
  unfold format_row. rewrite !string_length_app.
  rewrite !setw_left_length, !setw_right_length.
  change (String.length table_columns) with 76%nat.
  change (String.length "│ ") with 4%nat.
  change (String.length " │ ") with 5%nat.
  change (String.length " │") with 4%nat.
  change (String.length nl) with 1%nat. lia.
Qed.

(** X11: from one second on, the number in the last column is the whole
    seconds between the last-seen time and the tick's clock reading:
    truncating to milliseconds first loses nothing. *)
Theorem seconds_shown_are_whole_seconds
    (times : gmap string Z) (msg_name : string) (t current_time : Z) :
  times !! msg_name = Some t ->
  1000 <= duration_cast_milliseconds (current_time - t) ->
  last_seen times msg_name current_time
  = to_string (duration_cast_seconds (current_time - t)) ++ " s ago".
Proof.
  intros Ht Hd. unfold last_seen. rewrite Ht. cbn zeta.
  rewrite (proj2 (Z.ltb_ge _ _) Hd). f_equal.
  unfold duration_cast_milliseconds, duration_cast_seconds.
  rewrite Z.quot_quot by discriminate. reflexivity.
Qed.

Lemma seconds_shown_are_whole_seconds_witness :
  ({[ "HEARTBEAT" := 900000000 ]} : gmap string Z) !! "HEARTBEAT" = Some 900000000 ∧
  1000 <= duration_cast_milliseconds (12000000000 - 900000000) ∧
  last_seen {[ "HEARTBEAT" := 900000000 ]} "HEARTBEAT" 12000000000 = "11 s ago".
Proof.
  split; [reflexivity|]. split; [discriminate|].
  apply (seconds_shown_are_whole_seconds {[ "HEARTBEAT" := 900000000 ]}
           "HEARTBEAT" 900000000 12000000000); [reflexivity | discriminate].
Defined.

Lemma last_seen_bounded inputs bound : forall s,
  delivered_by bound inputs ->
  map_Forall (fun _ t => t <= bound) (last_message_time s) ->
  map_Forall (fun _ t => t <= bound) (last_message_time (run s inputs)).
Proof.
  induction inputs as [|i rest IH]; intros s Hin Hs; [done|].
  change (run s (i :: rest)) with (run (handle s i) rest).
  inversion Hin as [|? ? Hi Hrest]; subst. apply IH; [done|].
  destruct i as [n t|t]; cbn [handle].
  - rewrite on_message_last. destruct (is_monitored _ _); [|done].
    by apply map_Forall_insert_2.
  - by rewrite render_tick_last.
Qed.

(** X12: when no delivery read the clock later than the tick does, the
    milliseconds from which the last column is printed are not negative. *)
Theorem recency_is_never_negative
    (t0 : Z) (inputs : list input) (current_time : Z) (name : string) (t : Z) :
  delivered_by current_time inputs ->
  last_message_time (run (initial_session t0) inputs) !! name = Some t ->
  0 <= duration_cast_milliseconds (current_time - t).
Proof.
  intros Hin Ht.
  assert (t <= current_time) as Hle.
  { eapply (last_seen_bounded inputs current_time (initial_session t0)); [done| |done].
    apply map_Forall_empty. }
  unfold duration_cast_milliseconds. apply Z.quot_pos; [lia | reflexivity].
Qed.

Lemma recency_is_never_negative_witness :
  delivered_by 1000000000 three_heartbeats ∧
  last_message_time (run (initial_session 0) three_heartbeats) !! "HEARTBEAT"
    = Some 900000000 ∧
  0 <= duration_cast_milliseconds (1000000000 - 900000000).
Proof.
  assert (H1 : delivered_by 1000000000 three_heartbeats).
  { repeat constructor; discriminate. }
  assert (H2 : last_message_time (run (initial_session 0) three_heartbeats) !! "HEARTBEAT"
               = Some 900000000) by reflexivity.
  split; [exact H1|]. split; [exact H2|].
  exact (recency_is_never_negative 0 three_heartbeats 1000000000 "HEARTBEAT" 900000000 H1 H2).
Defined.

(** ** Further properties of the start-up *)

Lemma wait_result_shape (fuel : nat) (w : World) (start_wait : Z) (q c : nat)
    (r : WaitResult) :
  wait_for_system fuel w start_wait q c = Some r ->
  wait_clock_reads r = (c + length (wait_readings r))%nat ∧
  wait_queries r
    = (q + length (wait_readings r) + (if wait_timed_out r then 0 else 1))%nat ∧
  (forall j, (q <= j < q + length (wait_readings r))%nat -> systems_size w j = O) ∧
  (if wait_timed_out r
   then wait_effects r
        = (repeat (SleepFor POLL_PERIOD) (length (wait_readings r))
           ++ [ Cout note_no_autopilot; Cout note_continuing ])%list
   else wait_effects r = repeat (SleepFor POLL_PERIOD) (length (wait_readings r)) ∧
        systems_size w (q + length (wait_readings r)) ≠ O).
Proof.
  revert q c r. induction fuel as [|n IH]; intros q c r; [discriminate|].
  cbn [wait_for_system]. destruct (Nat.eqb_spec (systems_size w q) 0) as [Hq|Hq].
  - destruct (10 <? _).
    + intros [= <-]. cbn [wait_clock_reads wait_readings wait_queries wait_timed_out
                           wait_effects length repeat app].
      split; [lia|]. split; [lia|]. split; [|done].
      intros j Hj. by replace j with q by lia.
    + destruct (wait_for_system n w start_wait (S q) (S c)) as [r'|] eqn:Hw; [|discriminate].
      intros [= <-]. destruct (IH _ _ _ Hw) as (Hc & Hqs & Hzero & Heff).
      cbn [wait_clock_reads wait_readings wait_queries wait_timed_out wait_effects length].
      split; [lia|]. split; [lia|]. split.
      * intros j Hj. destruct (decide (j = q)) as [->|]; [done|]. apply Hzero. lia.
      * destruct (wait_timed_out r').
        -- rewrite Heff. reflexivity.
        -- destruct Heff as [-> Hs]. split; [reflexivity|].
           by replace (q + S (length (wait_readings r')))%nat
             with (S q + length (wait_readings r'))%nat by lia.
  - intros [= <-]. cbn [wait_clock_reads wait_readings wait_queries wait_timed_out
                         wait_effects length repeat].
    split; [lia|]. split; [lia|]. split; [intros j Hj; lia|].
    split; [done|]. by rewrite Nat.add_0_r.
Qed.

(** X13: the wait loop sleeps once and reads the clock once per iteration;
    every query before its last iteration found no system; it prints its
    two notes exactly when it ends by the [break], and otherwise ends on a
    query that found a system, having printed nothing. *)
Theorem wait_accounting (fuel : nat) (w : World) (start_wait : Z) (q c : nat)
    (r : WaitResult) :
  wait_for_system fuel w start_wait q c = Some r ->
  wait_clock_reads r = (c + length (wait_readings r))%nat ∧
  wait_queries r
    = (q + length (wait_readings r) + (if wait_timed_out r then 0 else 1))%nat ∧
  (forall j, (q <= j < q + length (wait_readings r))%nat -> systems_size w j = O) ∧
  (if wait_timed_out r
   then wait_effects r
        = (repeat (SleepFor POLL_PERIOD) (length (wait_readings r))
           ++ [ Cout note_no_autopilot; Cout note_continuing ])%list
   else wait_effects r = repeat (SleepFor POLL_PERIOD) (length (wait_readings r)) ∧
        systems_size w (q + length (wait_readings r)) ≠ O).
Proof. apply wait_result_shape. Qed.

Lemma wait_accounting_witness :
  (exists r,
     wait_for_system MAX_POLLS late_world 0 0 1 = Some r ∧
     wait_timed_out r = false ∧
     wait_readings r = [ 1 * POLL_PERIOD; 2 * POLL_PERIOD; 3 * POLL_PERIOD ] ∧
     wait_clock_reads r = 4%nat ∧
     wait_queries r = 4%nat ∧
     wait_effects r = repeat (SleepFor POLL_PERIOD) 3) ∧
  (exists r,
     wait_for_system MAX_POLLS silent_world 0 0 1 = Some r ∧
     wait_timed_out r = true ∧
     length (wait_readings r) = 110%nat ∧
     wait_clock_reads r = 111%nat ∧
     wait_queries r = 110%nat ∧
     wait_effects r
     = (repeat (SleepFor POLL_PERIOD) 110
        ++ [ Cout note_no_autopilot; Cout note_continuing ])%list).
Proof.
  split.
  - eexists. split; [vm_compute; reflexivity|].
    match goal with
    | |- wait_timed_out ?r = _ ∧ _ =>
        pose proof (wait_accounting MAX_POLLS late_world 0 0%nat 1%nat r
                      ltac:(vm_compute; reflexivity)) as H
    end.
    cbn [wait_timed_out] in H. destruct H as (H1 & H2 & _ & H4 & _).
    split; [reflexivity|]. split; [reflexivity|].
    split; [exact H1|]. split; [exact H2 | exact H4].
  - eexists. split; [vm_compute; reflexivity|].
    match goal with
    | |- wait_timed_out ?r = _ ∧ _ =>
        pose proof (wait_accounting MAX_POLLS silent_world 0 0%nat 1%nat r
                      ltac:(vm_compute; reflexivity)) as H
    end.
    cbn [wait_timed_out] in H. destruct H as (H1 & H2 & _ & H4).
    split; [reflexivity|]. split; [reflexivity|].
    split; [exact H1|]. split; [exact H2 | exact H4].
Defined.

(** X17: [main] gets to the render loop only with two arguments, a
    successful connection and a system found by some query, and then with
    empty statistics; its only return before the loop is 1, on a wrong
    argument count, a failed connection, or two consecutive queries around
    the grace sleep that find no system. *)
Theorem main_outcome (fuel : nat) (w : World) (cfg : config) (effs : list effect) :
  main fuel w = Some (cfg, effs) ->
  match cfg with
  | InLoop s =>
      argc w = 2 ∧ add_any_connection w = Success ∧
      (exists q, systems_size w q ≠ O) ∧
      message_counts s = ∅ ∧ last_message_time s = ∅ ∧ cout_left s = false ∧
      (exists c, start_time s = steady_clock_now w c)
  | AfterLoop _ => False
  | Exited status =>
      status = 1 ∧
      (argc w ≠ 2 ∨
       (exists printed, add_any_connection w = NotSuccess printed) ∨
       (exists q, systems_size w q = O ∧ systems_size w (S q) = O))
  end.
Proof.
  unfold main. destruct (argc w =? 2) eqn:Hargc; cbn [negb].
  2:{ intros [= <- _]. split; [done|]. left. by apply Z.eqb_neq. }
  apply Z.eqb_eq in Hargc.
  destruct (add_any_connection w) as [|printed] eqn:Hconn.
  2:{ intros [= <- _]. split; [done|]. right. left. by eexists. }
  destruct (wait_for_system _ _ _ _ _) as [r|]; [|discriminate].
  unfold first_system, start_monitoring.
  destruct (Nat.ltb_spec 0 (systems_size w (wait_queries r))) as [H1|H1].
  { intros [= <- _]. cbn [initial_session message_counts last_message_time cout_left start_time].
    do 2 (split; [done|]). split; [exists (wait_queries r); lia|].
    do 3 (split; [done|]). by eexists. }
  destruct (Nat.ltb_spec 0 (systems_size w (S (wait_queries r)))) as [H2|H2].
  { intros [= <- _]. cbn [initial_session message_counts last_message_time cout_left start_time].
    do 2 (split; [done|]). split; [exists (S (wait_queries r)); lia|].
    do 3 (split; [done|]). by eexists. }
  intros [= <- _]. split; [done|]. right. right. exists (wait_queries r). lia.
Qed.

Lemma main_outcome_witness :
  exists s effs,
    main 1 ready_world = Some (InLoop s, effs) ∧
    argc ready_world = 2 ∧ message_counts s = ∅.
Proof.
  eexists _, _. split; [reflexivity|].
  pose proof (main_outcome 1 ready_world _ _ eq_refl) as H.
  cbv beta iota in H. split; [apply H | apply H].
Defined.

Lemma main_never_returns_zero_witness :
  exists s effs,
    main 1 ready_world = Some (InLoop s, effs) ∧
    rtc step (InLoop s)
      (InLoop (fst (render_tick (on_message s "HEARTBEAT" 500000000) 1000000000))) ∧
    InLoop (fst (render_tick (on_message s "HEARTBEAT" 500000000) 1000000000))
      ≠ Exited 0.
Proof.
  eexists _, _. split; [reflexivity|].
  match goal with |- ?R ∧ _ => assert (Hrun : R) end.
  { eapply rtc_l; [apply (step_deliver _ "HEARTBEAT" 500000000)|].
    apply rtc_once. apply step_tick. }
  split; [exact Hrun|].
  exact (main_never_returns_zero 1 ready_world _ _ _ eq_refl Hrun).
Defined.

Lemma wait_timeout_readings_witness :
  exists r,
    wait_for_system MAX_POLLS silent_world 0 0 1 = Some r ∧
    wait_timed_out r = true ∧
    exists earlier final,
      wait_readings r = (earlier ++ [ final ])%list ∧
      11 * PERIODS_PER_SECOND <= final - 0 ∧
      Forall (fun t => t - 0 < 11 * PERIODS_PER_SECOND) earlier.
Proof.
  eexists. split; [vm_compute; reflexivity|]. split; [reflexivity|].
  eapply (wait_timeout_readings silent_world 0 MAX_POLLS 0 1); [vm_compute; reflexivity | reflexivity].
Defined.

Lemma sleep_total_app a b : sleep_total (a ++ b) = sleep_total a + sleep_total b.
Proof.
  induction a as [|e a IH]; [done|].
  destruct e; cbn [app sleep_total]; rewrite IH; lia.
Qed.

(** ** Start-up when every sleep lasts as asked *)

Lemma clock_advances_sleeps_last w : clock_advances w -> sleeps_last w.
Proof. intros H c Hc _. by apply H. Qed.

Lemma late_world_sleeps_last : sleeps_last late_world.
Proof.
  intros c _ Hz. destruct c as [|[|[|c]]]; [done | done | done |].
  specialize (Hz 3%nat ltac:(lia)). discriminate Hz.
Qed.

(** [late_world] reads its start time 1 ms after its last poll. *)
Lemma late_world_clock_does_not_advance : ¬ clock_advances late_world.
Proof. intros H. specialize (H 3%nat ltac:(unfold MAX_POLLS; lia)). by vm_compute in H. Qed.

(** The wait loop from its [q]-th iteration on, when sleeps last. *)
Lemma wait_ends_when_sleeps_last w :
  sleeps_last w ->
  forall n q,
    (q < MAX_POLLS)%nat ->
    (forall j, (j < q)%nat -> systems_size w j = O) ->
    steady_clock_now w 0 + Z.of_nat q * POLL_PERIOD <= steady_clock_now w q ->
    (MAX_POLLS <= n + q)%nat ->
    exists r,
      wait_for_system n w (steady_clock_now w 0) q (S q) = Some r ∧
      0 <= sleep_total (wait_effects r) <= Z.of_nat (MAX_POLLS - q) * POLL_PERIOD.
Proof.
  intros Hsl. induction n as [|n IH]; intros q Hq Hz Hb Hn.
  - unfold MAX_POLLS in *. lia.
  - cbn [wait_for_system]. destruct (Nat.eqb_spec (systems_size w q) 0) as [Hsys|Hsys].
    2:{ eexists. split; [done|]. cbn [wait_effects sleep_total].
        unfold MAX_POLLS, POLL_PERIOD, PERIODS_PER_MILLISECOND in *. lia. }
    assert (steady_clock_now w q + POLL_PERIOD <= steady_clock_now w (S q)) as Hstep.
    { apply Hsl; [done|]. intros j Hj.
      destruct (decide (j = q)) as [->|]; [done | apply Hz; lia]. }
    destruct (10 <? _) eqn:E.
    + eexists. split; [done|]. cbn [wait_effects sleep_total].
      unfold MAX_POLLS, POLL_PERIOD, PERIODS_PER_MILLISECOND in *. lia.
    + assert (S q < MAX_POLLS)%nat as Hlt.
      { destruct (decide (S q = MAX_POLLS)) as [Heq|]; [|lia].
        exfalso. apply not_true_iff_false in E. apply E, timeout_test.
        unfold MAX_POLLS, POLL_PERIOD, PERIODS_PER_MILLISECOND, PERIODS_PER_SECOND in *.
        lia. }
      destruct (IH (S q)) as (r & -> & Hr); [done | | | lia |].
      * intros j Hj. destruct (decide (j = q)) as [->|]; [done | apply Hz; lia].
      * unfold POLL_PERIOD, PERIODS_PER_MILLISECOND in *. lia.
      * eexists. split; [done|]. cbn [wait_effects sleep_total].
        unfold MAX_POLLS, POLL_PERIOD, PERIODS_PER_MILLISECOND in *. lia.
Qed.

Lemma wait_sleeps_when_sleeps_last w :
  sleeps_last w ->
  forall n q r,
    (q < MAX_POLLS)%nat ->
    (forall j, (j < q)%nat -> systems_size w j = O) ->
    steady_clock_now w 0 + Z.of_nat q * POLL_PERIOD <= steady_clock_now w q ->
    wait_for_system n w (steady_clock_now w 0) q (S q) = Some r ->
    0 <= sleep_total (wait_effects r) <= Z.of_nat (MAX_POLLS - q) * POLL_PERIOD.
Proof.
  intros Hsl. induction n as [|n IH]; intros q r Hq Hz Hb; [discriminate|].
  cbn [wait_for_system]. destruct (Nat.eqb_spec (systems_size w q) 0) as [Hsys|Hsys].
  2:{ intros [= <-]. cbn [wait_effects sleep_total].
      unfold MAX_POLLS, POLL_PERIOD, PERIODS_PER_MILLISECOND in *. lia. }
  assert (steady_clock_now w q + POLL_PERIOD <= steady_clock_now w (S q)) as Hstep.
  { apply Hsl; [done|]. intros j Hj.
    destruct (decide (j = q)) as [->|]; [done | apply Hz; lia]. }
  destruct (10 <? _) eqn:E.
  - intros [= <-]. cbn [wait_effects sleep_total].
    unfold MAX_POLLS, POLL_PERIOD, PERIODS_PER_MILLISECOND in *. lia.
  - destruct (wait_for_system n w _ (S q) (S (S q))) as [r'|] eqn:Hw; [|discriminate].
    intros [= <-]. cbn [wait_effects sleep_total].
    assert (S q < MAX_POLLS)%nat as Hlt.
    { destruct (decide (S q = MAX_POLLS)) as [Heq|]; [|lia].
      exfalso. apply not_true_iff_false in E. apply E, timeout_test.
      unfold MAX_POLLS, POLL_PERIOD, PERIODS_PER_MILLISECOND, PERIODS_PER_SECOND in *.
      lia. }
    assert (0 <= sleep_total (wait_effects r')
            <= Z.of_nat (MAX_POLLS - S q) * POLL_PERIOD) as Hr.
    { apply (IH (S q) r'); [done | | | done].
      - intros j Hj. destruct (decide (j = q)) as [->|]; [done | apply Hz; lia].
      - unfold POLL_PERIOD, PERIODS_PER_MILLISECOND in *. lia. }
    unfold MAX_POLLS, POLL_PERIOD, PERIODS_PER_MILLISECOND in *. lia.
Qed.

(** X15: when every sleep lasts at least as long as asked, [MAX_POLLS]
    iterations of the wait loop are enough for [main] to reach its [return]
    or the render loop, also when the start time is read right after the
    last poll. *)
Theorem main_terminates (w : World) (fuel : nat) :
  sleeps_last w -> (MAX_POLLS <= fuel)%nat ->
  exists outcome, main fuel w = Some outcome.
Proof.
  intros Hsl Hfuel. unfold main.
  destruct (negb _); [by eexists|].
  destruct (add_any_connection w); [|by eexists].
  destruct (wait_ends_when_sleeps_last w Hsl fuel 0) as (r & -> & _);
    [unfold MAX_POLLS; lia | intros j Hj; lia | lia | lia |].
  destruct (first_system _ _ _). by eexists.
Qed.

Lemma main_terminates_witness :
  sleeps_last late_world ∧ (MAX_POLLS <= MAX_POLLS)%nat ∧
  exists outcome, main MAX_POLLS late_world = Some outcome.
Proof.
  split; [apply late_world_sleeps_last|]. split; [apply Nat.le_refl|].
  apply main_terminates; [apply late_world_sleeps_last | apply Nat.le_refl].
Defined.

(** X16: when every sleep lasts at least as long as asked, the start-up
    asks for at most 13 s of sleep in all before it returns or enters the
    render loop. *)
Theorem startup_sleeps_at_most_13_seconds
    (fuel : nat) (w : World) (cfg : config) (effs : list effect) :
  sleeps_last w ->
  main fuel w = Some (cfg, effs) ->
  0 <= sleep_total effs <= 13 * PERIODS_PER_SECOND.
Proof.
  intros Hsl. unfold main. destruct (negb _).
  { intros [= _ <-]. cbn [sleep_total]. unfold PERIODS_PER_SECOND. lia. }
  destruct (add_any_connection w).
  2:{ intros [= _ <-]. cbn [sleep_total]. unfold PERIODS_PER_SECOND. lia. }
  destruct (wait_for_system _ _ _ _ _) as [r|] eqn:Hw; [|discriminate].
  pose proof (wait_sleeps_when_sleeps_last w Hsl fuel 0%nat r
                ltac:(unfold MAX_POLLS; lia) ltac:(intros j Hj; lia) ltac:(lia) Hw) as Hb.
  unfold first_system, start_monitoring.
  destruct (0 <? _)%nat; [|destruct (0 <? _)%nat];
    intros [= _ <-]; cbn [app sleep_total]; rewrite !sleep_total_app;
    cbn [sleep_total app];
    unfold MAX_POLLS, POLL_PERIOD, GRACE_PERIOD, PERIODS_PER_MILLISECOND,
      PERIODS_PER_SECOND in *; cbn in Hb; lia.
Qed.

Lemma startup_sleeps_at_most_13_seconds_witness :
  exists s effs,
    sleeps_last late_world ∧
    main MAX_POLLS late_world = Some (InLoop s, effs) ∧
    sleep_total effs = 3 * POLL_PERIOD ∧
    0 <= sleep_total effs <= 13 * PERIODS_PER_SECOND.
Proof.
  eexists _, _. split; [apply late_world_sleeps_last|].
  split; [vm_compute; reflexivity|]. split; [vm_compute; reflexivity|].
  eapply (startup_sleeps_at_most_13_seconds MAX_POLLS late_world);
    [apply late_world_sleeps_last | vm_compute; reflexivity].
Defined.

End SensorRateMonitor.
